(** * Image-generation gateway: validation pipeline and response translator

    A shallow embedding of [src/image_generation_backend/main.py]:
    [_generate_image_core] and the two routes that call it
    ([generate_image], [generate_image_simple]).

    The Python code is dynamically typed and works on decoded JSON, so the
    embedding carries JSON values with their run-time type, gives each
    operator the outcome the interpreter gives it (a value or a raised
    exception), and writes the two effects of the core (the call of
    [requests.post] and the reading of the clock) as nodes of a small
    program tree that an environment answers. *)

From Stdlib Require Import ZArith QArith Qcanon String Ascii List Sorted.
From stdpp Require Import base option list strings gmap fin_maps pretty numbers.

Local Open Scope string_scope.
Local Open Scope Z_scope.

(** ** Decoded JSON, as Python holds it

    [json.loads] maps objects to [dict], arrays to [list], strings to
    [str], integer literals to [int], the other number literals to
    [float], [true]/[false] to [bool] and [null] to [None].  Python's
    decoder also accepts the literals [NaN], [Infinity] and [-Infinity],
    and a number literal too large for a float ([1e999]) decodes to an
    infinity: [JNaN] and [JInf].  A finite float is carried by its exact
    rational value. *)
#[warnings="-register-all"]
Inductive json : Type :=
| JNull
| JBool (b : bool)
| JInt (z : Z)
| JFloat (q : Qc)
| JStr (s : string)
| JArr (l : list json)
| JObj (m : gmap string json)
| JNaN
| JInf (negative : bool).

Abbreviation pydict := (gmap string json).

(** ** Exceptions

    The core distinguishes three families: [requests.exceptions.Timeout]
    (and its subclasses), the remaining [requests.exceptions.RequestException]
    classes, and everything else.  The errors the interpreter raises on an
    ill-typed operand belong to the third family; they are recorded with
    the operation and the operand that caused them. *)
Inductive py_error : Type :=
| TypeError (operation : string) (operand : json)
| AttributeError (attribute : string) (operand : json)
| KeyError (key : string).

Inductive exn : Type :=
| Interpreter (e : py_error)
| Timeout (msg : string)
| RequestException (msg : string)
| OtherException (msg : string).

(** What a call of a collaborator comes back with. *)
Inductive outcome (A : Type) : Type :=
| Ok (a : A)
| Raised (e : exn).
Arguments Ok {A} a.
Arguments Raised {A} e.

(** The part of a [requests.Response] the core reads. *)
Record response : Type := Response {
  status_code : Z;
  text : string;
  json_body : outcome json   (* what [response.json()] does *)
}.

(** ** Programs

    A computation returns, raises, or performs one of the two effects and
    goes on with the answer. *)
Inductive io (A : Type) : Type :=
| Return (a : A)
| Raise (e : exn)
| RequestsPost (url : string) (headers : gmap string string)
               (payload : pydict) (timeout : Z)
               (k : outcome response -> io A)
| DatetimeNow (k : string -> io A).
Arguments Return {A} a.
Arguments Raise {A} e.
Arguments RequestsPost {A} url headers payload timeout k.
Arguments DatetimeNow {A} k.

Fixpoint bind {A B : Type} (c : io A) (f : A -> io B) : io B :=
  match c with
  | Return a => f a
  | Raise e => Raise e
  | RequestsPost u h p t k => RequestsPost u h p t (fun r => bind (k r) f)
  | DatetimeNow k => DatetimeNow (fun s => bind (k s) f)
  end.

Notation "x <- c1 ;; c2" := (bind c1 (fun x => c2))
  (at level 100, c1 at next level, right associativity).
Notation "c1 ;;; c2" := (bind c1 (fun _ => c2))
  (at level 100, right associativity).

Definition lift {A : Type} (o : outcome A) : io A :=
  match o with
  | Ok a => Return a
  | Raised e => Raise e
  end.

(** [try: body  except ...: handler]: [handler e = None] when no clause
    matches [e], which then propagates. *)
Fixpoint try_except {A : Type} (body : io A) (handler : exn -> option (io A)) : io A :=
  match body with
  | Return a => Return a
  | Raise e => match handler e with
               | Some h => h
               | None => Raise e
               end
  | RequestsPost u h p t k =>
      RequestsPost u h p t (fun r => try_except (k r) handler)
  | DatetimeNow k => DatetimeNow (fun s => try_except (k s) handler)
  end.

(** The environment of one request: the upstream service behind
    [requests.post] and the clock behind [datetime.now().isoformat()]. *)
Record world : Type := World {
  requests_post : string -> gmap string string -> pydict -> Z -> outcome response;
  now_isoformat : string
}.

Fixpoint run {A : Type} (w : world) (c : io A) : outcome A :=
  match c with
  | Return a => Ok a
  | Raise e => Raised e
  | RequestsPost u h p t k => run w (k (requests_post w u h p t))
  | DatetimeNow k => run w (k (now_isoformat w))
  end.

(** ** The Python operators the core uses, on decoded JSON *)

(** Truth value of an object ([not v] is its negation). *)
Definition py_truthy (v : json) : bool :=
  match v with
  | JNull => false
  | JBool b => b
  | JInt z => negb (z =? 0)
  | JFloat q => negb (bool_decide (q = Qc_of_Z 0))
  | JStr s => negb (bool_decide (s = ""))
  | JArr l => match l with [] => false | _ :: _ => true end
  | JObj m => negb (Nat.eqb (size m) 0)
  | JNaN | JInf _ => true
  end.

(** [d.get(key, default)]: only a [dict] has the method. *)
Definition dict_get (d : json) (key : string) (default_value : json) : io json :=
  match d with
  | JObj m => Return (default default_value (m !! key))
  | _ => Raise (Interpreter (AttributeError "get" d))
  end.

(** [key in c] for a string [key]: key membership in a [dict], element
    membership in a [list], substring test in a [str]. *)
Definition py_in (key : string) (c : json) : io bool :=
  match c with
  | JObj m => Return (match m !! key with Some _ => true | None => false end)
  | JArr l =>
      Return (existsb (fun x => match x with
                                | JStr s => bool_decide (s = key)
                                | _ => false
                                end) l)
  | JStr s => Return (match String.index 0 key s with Some _ => true | None => false end)
  | _ => Raise (Interpreter (TypeError "in" c))
  end.

(** [c[key]] for a string [key]. *)
Definition py_getitem (c : json) (key : string) : io json :=
  match c with
  | JObj m => match m !! key with
              | Some v => Return v
              | None => Raise (Interpreter (KeyError key))
              end
  | _ => Raise (Interpreter (TypeError "[]" c))
  end.

(** [len(v)].  The core only compares it with 0 (or logs it), so the
    unit in which a string is counted does not matter. *)
Definition py_len (v : json) : io Z :=
  match v with
  | JStr s => Return (Z.of_nat (String.length s))
  | JArr l => Return (Z.of_nat (length l))
  | JObj m => Return (Z.of_nat (size m))
  | _ => Raise (Interpreter (TypeError "len" v))
  end.

(** The items a [for] loop draws from [v]: the elements of a [list], the
    characters of a [str], the keys of a [dict] (whose order plays no
    part: the loop of the core stops at the first item that is a string). *)
Definition py_iter (v : json) : io (list json) :=
  match v with
  | JArr l => Return l
  | JStr s => Return ((fun c => JStr (String c "")) <$> list_ascii_of_string s)
  | JObj m => Return (JStr <$> (map_to_list m).*1)
  | _ => Raise (Interpreter (TypeError "iter" v))
  end.

(** [v.keys()]: only a [dict] has the method. *)
Definition dict_keys (v : json) : io (list string) :=
  match v with
  | JObj m => Return (map_to_list m).*1
  | _ => Raise (Interpreter (AttributeError "keys" v))
  end.

(** [v[:n]]: a [str] or a [list] can be sliced; on anything else, a
    [dict] included, the interpreter raises. *)
Definition py_slice_to (v : json) (n : nat) : io json :=
  match v with
  | JStr s => Return (JStr (String.substring 0 n s))
  | JArr l => Return (JArr (take n l))
  | _ => Raise (Interpreter (TypeError "[:]" v))
  end.

(** The numbers of Python that compare with an [int]: the finite ones,
    the two infinities and NaN. *)
Inductive number : Type :=
| Finite (q : Qc)
| Infinity (negative : bool)
| NotANumber.

(** The number a value stands for in a comparison: [bool] is a subclass of
    [int]; nothing else than [int], [bool] and [float] compares with an
    [int]. *)
Definition num_value (v : json) : option number :=
  match v with
  | JInt z => Some (Finite (Qc_of_Z z))
  | JBool b => Some (Finite (Qc_of_Z (Z.b2z b)))
  | JFloat q => Some (Finite q)
  | JNaN => Some NotANumber
  | JInf negative => Some (Infinity negative)
  | _ => None
  end.

(** [a < c] and [a > c] on numbers, [c] an integer: every comparison with
    NaN is false. *)
Definition number_lt (a : number) (c : Z) : bool :=
  match a with
  | Finite q => bool_decide (q < Qc_of_Z c)%Qc
  | Infinity negative => negative
  | NotANumber => false
  end.

Definition number_gt (a : number) (c : Z) : bool :=
  match a with
  | Finite q => bool_decide (Qc_of_Z c < q)%Qc
  | Infinity negative => negb negative
  | NotANumber => false
  end.

(** [v < c] and [v > c] against an integer literal [c]. *)
Definition py_lt (v : json) (c : Z) : io bool :=
  match num_value v with
  | Some a => Return (number_lt a c)
  | None => Raise (Interpreter (TypeError "<" v))
  end.

Definition py_gt (v : json) (c : Z) : io bool :=
  match num_value v with
  | Some a => Return (number_gt a c)
  | None => Raise (Interpreter (TypeError ">" v))
  end.

(** [a or b] on truth values: [b] is evaluated only when [a] is false. *)
Definition py_or (a b : io bool) : io bool :=
  x <- a ;; if x then Return true else b.

(** [a and b] on truth values: [b] is evaluated only when [a] is true. *)
Definition py_and (a b : io bool) : io bool :=
  x <- a ;; if x then b else Return false.

(** [repr] of a list of strings, as an f-string prints it.  The strings
    are quoted as [repr] quotes a string free of quotes, backslashes and
    control characters, which is what the model names are. *)
Definition py_repr_str (s : string) : string := "'" +:+ s +:+ "'".

Fixpoint py_join (sep : string) (l : list string) : string :=
  match l with
  | [] => ""
  | [s] => s
  | s :: rest => s +:+ sep +:+ py_join sep rest
  end.

Definition py_repr_list (l : list string) : string :=
  "[" +:+ py_join ", " (py_repr_str <$> l) +:+ "]".

(** ** Module constants *)

Definition TOGETHER_API_URL : string :=
  "https://api.together.xyz/v1/images/generations".

Definition AVAILABLE_MODELS : list string :=
  [ "black-forest-labs/FLUX.1-schnell-Free";
    "black-forest-labs/FLUX.1-dev";
    "stabilityai/stable-diffusion-xl-base-1.0";
    "stabilityai/stable-diffusion-2-1";
    "runwayml/stable-diffusion-v1-5" ].

(** [AVAILABLE_MODELS[0]]; the list is a non-empty literal. *)
Definition AVAILABLE_MODELS_0 : string := hd "" AVAILABLE_MODELS.

(** [model in AVAILABLE_MODELS]: list membership by [==]; only a [str]
    equals a [str]. *)
Definition in_AVAILABLE_MODELS (model : json) : bool :=
  match model with
  | JStr s => bool_decide (s ∈ AVAILABLE_MODELS)
  | _ => false
  end.

(** The string literal of line 102. *)
Definition DEFAULT_NEGATIVE_PROMPT : string :=
  "blurry, low quality, distorted, pixelated, artifacts, bad anatomy".

(** The literal [7.5] of line 111. *)
Definition DEFAULT_GUIDANCE_SCALE : Qc := Q2Qc (15 # 2).

(** ** The response translator loop (main.py, lines 137-154)

    [i] is the counter of [enumerate], [images_data] the list built so
    far.  The log lines themselves are not modelled, the expressions
    evaluated to print them are, since they can raise. *)
Fixpoint process_images (i : Z) (items : list json) (images_data : list json)
  : io (list json) :=
  match items with
  | [] => Return images_data
  | image_data :: rest =>
      _ <- dict_keys image_data ;;
      has_url <- py_in "url" image_data ;;
      images_data' <-
        (if has_url then
           _ <- py_getitem image_data "url" ;;
           url <- py_getitem image_data "url" ;;
           Return (images_data ++
                   [JObj (<["url" := url]> (<["index" := JInt i]> ∅))])%list
         else
           has_b64 <- py_in "b64_json" image_data ;;
           if has_b64 then
             logged <- py_getitem image_data "b64_json" ;;
             _ <- py_len logged ;;
             b64 <- py_getitem image_data "b64_json" ;;
             Return (images_data ++
                     [JObj (<["b64_json" := b64]> (<["index" := JInt i]> ∅))])%list
           else
             Return images_data) ;;
      process_images (i + 1) rest images_data'
  end.

(** The dictionaries the core returns. *)
Definition error_body (msg : string) : pydict := {[ "error" := JStr msg ]}.

Definition ERR_NO_KEY : pydict :=
  <["error" := JStr "Together AI API key not configured"]>
    (<["message" := JStr "Please set TOGETHER_API_KEY environment variable"]> ∅).

Definition ERR_PROMPT : pydict := error_body "Prompt is required".

Definition ERR_MODEL : pydict :=
  error_body ("Invalid model. Available models: " +:+ py_repr_list AVAILABLE_MODELS).

Definition ERR_DIMENSIONS : pydict :=
  error_body "Width and height must be between 256 and 2048 pixels".

Definition ERR_STEPS : pydict :=
  error_body "Steps must be between 1 and 12 for Together AI models".

Definition ERR_NO_IMAGES : pydict := error_body "No images generated".

Definition ERR_TIMEOUT : pydict :=
  error_body "Request timeout - image generation took too long".

(** The message of lines 125-127. *)
Definition upstream_error_msg (r : response) : string :=
  let error_msg := "Together AI API error: " +:+ pretty (status_code r) in
  if py_truthy (JStr (text r)) then error_msg +:+ " - " +:+ text r else error_msg.

(** The two [except] clauses of the core, in their order. *)
Definition core_handler (e : exn) : option (io (pydict * Z)) :=
  match e with
  | Timeout _ => Some (Return (ERR_TIMEOUT, 408))
  | RequestException msg =>
      Some (Return (error_body ("Request failed: " +:+ msg), 500))
  | _ => None
  end.

(** The dictionary returned with status 200 (lines 158-172). *)
Definition success_body (prompt model width height steps n : json)
    (payload : pydict) (images_data : list json) (timestamp : string) : pydict :=
  <["success" := JBool true]>
  (<["images" := JArr images_data]>
  (<["prompt" := prompt]>
  (<["model" := model]>
  (<["parameters" := JObj
       (<["width" := width]>
       (<["height" := height]>
       (<["steps" := steps]>
       (<["n" := n]>
       (<["guidance_scale" := default JNull (payload !! "guidance_scale")]>
       (<["negative_prompt" := default JNull (payload !! "negative_prompt")]>
        ∅))))))]>
  (<["timestamp" := JStr timestamp]> ∅))))).

(** Processing of the decoded upstream body (lines 133-175). *)
Definition translate_response (prompt model width height steps n : json)
    (payload : pydict) (result : json) : io (pydict * Z) :=
  has_images <-
    py_and (py_in "data" result)
           (data <- py_getitem result "data" ;;
            len <- py_len data ;;
            Return (0 <? len)) ;;
  if has_images then
    data <- py_getitem result "data" ;;
    items <- py_iter data ;;
    images_data <- process_images 0 items [] ;;
    timestamp <- DatetimeNow Return ;;
    Return (success_body prompt model width height steps n payload
              images_data timestamp, 200)
  else
    Return (ERR_NO_IMAGES, 500).

Definition request_headers (TOGETHER_API_KEY : string) : gmap string string :=
  <["Authorization" := "Bearer " +:+ TOGETHER_API_KEY]>
    (<["Content-Type" := "application/json"]> ∅).

(** The body of the [try] block of the core (lines 116-175). *)
Definition dispatch_and_translate (TOGETHER_API_KEY : string)
    (prompt model width height steps n : json) (payload : pydict)
  : io (pydict * Z) :=
  posted <- RequestsPost TOGETHER_API_URL (request_headers TOGETHER_API_KEY)
              payload 120 Return ;;
  response <- lift posted ;;
  if negb (status_code response =? 200) then
    Return (error_body (upstream_error_msg response), status_code response)
  else
    result <- lift (json_body response) ;;
    translate_response prompt model width height steps n payload result.

(** ** [_generate_image_core] (main.py, lines 44-181)

    The credential is a module global of the source, bound there to a
    non-empty literal; it is a parameter here. *)
Definition _generate_image_core (TOGETHER_API_KEY : string) (data : json)
  : io (pydict * Z) :=
  if negb (py_truthy (JStr TOGETHER_API_KEY)) then Return (ERR_NO_KEY, 500) else
  prompt <- dict_get data "prompt" JNull ;;
  if negb (py_truthy prompt) then Return (ERR_PROMPT, 400) else
  model <- dict_get data "model" (JStr AVAILABLE_MODELS_0) ;;
  width <- dict_get data "width" (JInt 1024) ;;
  height <- dict_get data "height" (JInt 1024) ;;
  steps <- dict_get data "steps" (JInt 12) ;;
  n <- dict_get data "n" (JInt 1) ;;
  if negb (in_AVAILABLE_MODELS model) then Return (ERR_MODEL, 400) else
  bad_dimensions <-
    py_or (py_lt width 256)
      (py_or (py_gt width 2048)
        (py_or (py_lt height 256) (py_gt height 2048))) ;;
  if bad_dimensions then Return (ERR_DIMENSIONS, 400) else
  bad_steps <- py_or (py_lt steps 1) (py_gt steps 12) ;;
  if bad_steps then Return (ERR_STEPS, 400) else
  let payload : pydict :=
    <["model" := model]> (<["prompt" := prompt]> (<["width" := width]>
    (<["height" := height]> (<["steps" := steps]> (<["n" := n]> ∅))))) in
  has_negative_prompt <- py_in "negative_prompt" data ;;
  payload <-
    (if has_negative_prompt then
       v <- py_getitem data "negative_prompt" ;;
       Return (<["negative_prompt" := v]> payload)
     else
       Return (<["negative_prompt" := JStr DEFAULT_NEGATIVE_PROMPT]> payload)) ;;
  has_seed <- py_in "seed" data ;;
  payload <-
    (if has_seed then
       v <- py_getitem data "seed" ;;
       Return (<["seed" := v]> payload)
     else
       Return payload) ;;
  has_guidance_scale <- py_in "guidance_scale" data ;;
  payload <-
    (if has_guidance_scale then
       v <- py_getitem data "guidance_scale" ;;
       Return (<["guidance_scale" := v]> payload)
     else
       Return (<["guidance_scale" := JFloat DEFAULT_GUIDANCE_SCALE]> payload)) ;;
  _ <- py_slice_to prompt 100 ;;
  try_except
    (dispatch_and_translate TOGETHER_API_KEY prompt model width height steps n payload)
    core_handler.

(** ** The two routes (main.py, lines 183-223)

    [get_json] is what [request.get_json()] does on the request at hand:
    the decoded body, or the exception Flask raises on a body it cannot
    decode.  [str_error] is the text [str(e)] gives for an error raised by
    the interpreter; its wording is the interpreter's and is left open. *)
Section Routes.

Variable str_error : py_error -> string.

Definition py_str (e : exn) : string :=
  match e with
  | Interpreter e => str_error e
  | Timeout msg | RequestException msg | OtherException msg => msg
  end.

Definition generate_image (TOGETHER_API_KEY : string) (get_json : outcome json)
  : io (pydict * Z) :=
  try_except
    (data <- lift get_json ;;
     if negb (py_truthy data) then
       Return (error_body "No JSON data provided", 400)
     else
       _generate_image_core TOGETHER_API_KEY data)
    (fun e => Some (Return
       (error_body ("Internal server error: " +:+ py_str e), 500))).

(** The dictionary [enhanced_data] of lines 209-216. *)
Definition enhanced_data (prompt : json) : pydict :=
  <["prompt" := prompt]>
  (<["model" := JStr AVAILABLE_MODELS_0]>
  (<["width" := JInt 1024]>
  (<["height" := JInt 1024]>
  (<["steps" := JInt 12]>
  (<["n" := JInt 1]> ∅))))).

Definition generate_image_simple (TOGETHER_API_KEY : string)
    (get_json : outcome json) : io (pydict * Z) :=
  try_except
    (data <- lift get_json ;;
     prompt <- dict_get data "prompt" JNull ;;
     if negb (py_truthy prompt) then
       Return (error_body "Prompt is required", 400)
     else
       _generate_image_core TOGETHER_API_KEY (JObj (enhanced_data prompt)))
    (fun e => Some (Return (error_body (py_str e), 500))).

End Routes.

(** ** The other views and the error handlers (main.py, lines 27-42 and
    225-231)

    A view that returns [jsonify(...)] alone answers with status 200. *)
Definition health_check : io (pydict * Z) :=
  timestamp <- DatetimeNow Return ;;
  Return (<["status" := JStr "healthy"]>
          (<["timestamp" := JStr timestamp]>
          (<["service" := JStr "Together AI Image Generation Server"]> ∅)), 200).

Definition get_available_models : io (pydict * Z) :=
  Return (<["models" := JArr (JStr <$> AVAILABLE_MODELS)]>
          (<["default" := JStr AVAILABLE_MODELS_0]> ∅), 200).

Definition not_found : io (pydict * Z) :=
  Return (error_body "Endpoint not found", 404).

Definition internal_error : io (pydict * Z) :=
  Return (error_body "Internal server error", 500).

(** * Vocabulary of the statements

    Nothing below is code of the repository: these are the readings of a
    program, the closed forms and the predicates the theorems are stated
    with, and the concrete requests and replies they are instantiated at. *)

(** ** Reading a program *)

(** The upstream call a program starts with, if it starts with one. *)
Definition upstream_call {A : Type} (c : io A)
  : option (string * gmap string string * pydict * Z) :=
  match c with
  | RequestsPost u h p t _ => Some (u, h, p, t)
  | _ => None
  end.

(** The payloads of all the upstream calls of a run, in order. *)
Fixpoint posted {A : Type} (w : world) (c : io A) : list pydict :=
  match c with
  | Return _ | Raise _ => []
  | RequestsPost u h p t k => p :: posted w (k (requests_post w u h p t))
  | DatetimeNow k => posted w (k (now_isoformat w))
  end.

(** ** The request after defaulting *)

(** The value a request field takes after defaulting (lines 54-62). *)
Definition effective (data : pydict) (key : string) (default_value : json) : json :=
  default default_value (data !! key).

Definition prompt_of (data : pydict) : json := effective data "prompt" JNull.
Definition model_of (data : pydict) : json :=
  effective data "model" (JStr AVAILABLE_MODELS_0).
Definition width_of (data : pydict) : json := effective data "width" (JInt 1024).
Definition height_of (data : pydict) : json := effective data "height" (JInt 1024).
Definition steps_of (data : pydict) : json := effective data "steps" (JInt 12).
Definition n_of (data : pydict) : json := effective data "n" (JInt 1).

(** A number below [c], above [c], in [lo, hi], read off the value
    itself: an integer, a finite float, [False] and [True] as 0 and 1;
    the infinities are below or above every integer; NaN is none of the
    three. *)
Definition below (v : json) (c : Z) : Prop :=
  match v with
  | JInt z => z < c
  | JBool b => Z.b2z b < c
  | JFloat q => (q < Qc_of_Z c)%Qc
  | JInf negative => negative = true
  | _ => False
  end.

Definition above (v : json) (c : Z) : Prop :=
  match v with
  | JInt z => c < z
  | JBool b => c < Z.b2z b
  | JFloat q => (Qc_of_Z c < q)%Qc
  | JInf negative => negative = false
  | _ => False
  end.

Definition within (v : json) (lo hi : Z) : Prop :=
  match v with
  | JInt z => lo ≤ z ≤ hi
  | JBool b => lo ≤ Z.b2z b ≤ hi
  | JFloat q => (Qc_of_Z lo ≤ q)%Qc ∧ (q ≤ Qc_of_Z hi)%Qc
  | _ => False
  end.

(** What a range test [v < lo or v > hi] lets through without raising
    ([passes_spec]): a number in [lo, hi], and NaN, on which both
    comparisons are false. *)
Definition passes (v : json) (lo hi : Z) : Prop :=
  within v lo hi ∨ v = JNaN.

(** What [v[:n]] accepts. *)
Definition sliceable (v : json) : Prop :=
  match v with
  | JStr _ | JArr _ => True
  | _ => False
  end.

(** The conditions under which the core gets as far as the upstream call
    (proved necessary and sufficient in [upstream_call_inv] and
    [core_validated]). *)
Record validated (key : string) (data : pydict) : Prop := Validated {
  v_key : key ≠ "";
  v_prompt : py_truthy (prompt_of data) = true;
  v_sliceable : sliceable (prompt_of data);
  v_model : in_AVAILABLE_MODELS (model_of data) = true;
  v_width : passes (width_of data) 256 2048;
  v_height : passes (height_of data) 256 2048;
  v_steps : passes (steps_of data) 1 12
}.

(** The payload the core has built when it reaches line 113, in closed
    form (proved in [core_validated]). *)
Definition payload_of (data : pydict) : pydict :=
  let base : pydict :=
    <["model" := model_of data]>
    (<["prompt" := prompt_of data]>
    (<["width" := width_of data]>
    (<["height" := height_of data]>
    (<["steps" := steps_of data]>
    (<["n" := n_of data]> ∅))))) in
  let with_negative_prompt :=
    <["negative_prompt" :=
        effective data "negative_prompt" (JStr DEFAULT_NEGATIVE_PROMPT)]> base in
  let with_seed :=
    match data !! "seed" with
    | Some v => <["seed" := v]> with_negative_prompt
    | None => with_negative_prompt
    end in
  <["guidance_scale" :=
      effective data "guidance_scale" (JFloat DEFAULT_GUIDANCE_SCALE)]> with_seed.

(** The program the core is on a validated request. *)
Definition dispatch_of (key : string) (data : pydict) : io (pydict * Z) :=
  try_except
    (dispatch_and_translate key (prompt_of data) (model_of data) (width_of data)
       (height_of data) (steps_of data) (n_of data) (payload_of data))
    core_handler.

(** What the core does, by the first check that fails (proved in
    [core_classified]). *)
Inductive core_result (key : string) (data : pydict) : io (pydict * Z) → Prop :=
| CR_no_key :
    key = "" →
    core_result key data (Return (ERR_NO_KEY, 500))
| CR_prompt :
    key ≠ "" →
    py_truthy (prompt_of data) = false →
    core_result key data (Return (ERR_PROMPT, 400))
| CR_model :
    key ≠ "" →
    py_truthy (prompt_of data) = true →
    in_AVAILABLE_MODELS (model_of data) = false →
    core_result key data (Return (ERR_MODEL, 400))
| CR_dimensions :
    key ≠ "" →
    py_truthy (prompt_of data) = true →
    in_AVAILABLE_MODELS (model_of data) = true →
    below (width_of data) 256 ∨ above (width_of data) 2048 ∨
      (passes (width_of data) 256 2048 ∧
       (below (height_of data) 256 ∨ above (height_of data) 2048)) →
    core_result key data (Return (ERR_DIMENSIONS, 400))
| CR_steps :
    key ≠ "" →
    py_truthy (prompt_of data) = true →
    in_AVAILABLE_MODELS (model_of data) = true →
    passes (width_of data) 256 2048 →
    passes (height_of data) 256 2048 →
    below (steps_of data) 1 ∨ above (steps_of data) 12 →
    core_result key data (Return (ERR_STEPS, 400))
| CR_raise e :
    key ≠ "" →
    py_truthy (prompt_of data) = true →
    in_AVAILABLE_MODELS (model_of data) = true →
    core_result key data (Raise (Interpreter e))
| CR_dispatch :
    validated key data →
    core_result key data (dispatch_of key data).

(** [s] occurs in [msg]. *)
Definition occurs_in (s msg : string) : Prop :=
  ∃ pre post, msg = pre +:+ s +:+ post.

(** ** The response translator, as the specification words it *)

(** The translation rule: a URL entry when the entry has a [url] field,
    else an inline entry when it has a [b64_json] field, else nothing;
    the entry's position is attached. *)
Definition spec_image_result (index : Z) (entry : pydict) : option json :=
  match entry !! "url" with
  | Some url => Some (JObj (<["url" := url]> (<["index" := JInt index]> ∅)))
  | None =>
      match entry !! "b64_json" with
      | Some b64 => Some (JObj (<["b64_json" := b64]> (<["index" := JInt index]> ∅)))
      | None => None
      end
  end.

(** One result at most per entry, in the order of the entries, each
    tagged with the zero-based position of its entry. *)
Definition spec_translate (entries : list pydict) : list json :=
  omap id (imap (λ i entry, spec_image_result (Z.of_nat i) entry) entries).

(** The same list, counted from [i] on, in the shape of the loop. *)
Fixpoint results_from (i : Z) (entries : list pydict) : list json :=
  match entries with
  | [] => []
  | entry :: rest =>
      (option_list (spec_image_result i entry) ++ results_from (i + 1) rest)%list
  end.

(** What [len] accepts. *)
Definition sized (v : json) : Prop :=
  match v with
  | JStr _ | JArr _ | JObj _ => True
  | _ => False
  end.

(** The inline payload of an entry, when the loop reads it (no [url]
    field), is one whose length the log line can print. *)
Definition inline_sized (entry : pydict) : Prop :=
  entry !! "url" = None → ∀ b64, entry !! "b64_json" = Some b64 → sized b64.

(** ** The response *)

(** The keys of the [parameters] object of the response. *)
Definition ECHOED_PARAMETERS : list string :=
  ["width"; "height"; "steps"; "n"; "guidance_scale"; "negative_prompt"].

(** The [index] of an element of the images list. *)
Definition image_index (image : json) : option Z :=
  match image with
  | JObj m => match m !! "index" with
              | Some (JInt i) => Some i
              | _ => None
              end
  | _ => None
  end.

(** The element is an object with an integer [index] and exactly one of
    the two encodings. *)
Definition one_encoding (image : json) : Prop :=
  ∃ (m : pydict) (i : Z),
    image = JObj m ∧ m !! "index" = Some (JInt i) ∧
    ((is_Some (m !! "url") ∧ m !! "b64_json" = None) ∨
     (m !! "url" = None ∧ is_Some (m !! "b64_json"))).

(** [a] carries a smaller index than [b]. *)
Definition index_before (a b : json) : Prop :=
  match image_index a, image_index b with
  | Some i, Some j => i < j
  | _, _ => False
  end.

(** ** Concrete requests, replies and environments *)

Definition example_request : pydict := {[ "prompt" := JStr "a cat" ]}.

(** A request that is wrong in every field at once. *)
Definition hopeless_request : pydict :=
  <["model" := JStr "no-such-model"]>
  (<["width" := JInt 1]> (<["height" := JStr "tall"]> (<["steps" := JInt 99]> ∅))).


(** Requests with a prompt and a valid model that fail one range check
    each: the width, with a height that is no number and steps out of
    range; the height, with steps out of range; the steps. *)
Definition narrow_request : pydict :=
  <["prompt" := JStr "a cat"]>
  (<["width" := JInt 1]> (<["height" := JStr "tall"]> (<["steps" := JInt 99]> ∅))).

Definition tall_request : pydict :=
  <["prompt" := JStr "a cat"]>
  (<["width" := JInt 512]> (<["height" := JInt 3000]> (<["steps" := JInt 99]> ∅))).

Definition slow_request : pydict :=
  <["prompt" := JStr "a cat"]>
  (<["width" := JInt 512]> (<["height" := JInt 512]> (<["steps" := JInt 99]> ∅))).

(** What line 67 prints for
    [f'Invalid model. Available models: {AVAILABLE_MODELS}']. *)
Definition INVALID_MODEL_TEXT : string :=
  "Invalid model. Available models: " +:+
  "['black-forest-labs/FLUX.1-schnell-Free', " +:+
  "'black-forest-labs/FLUX.1-dev', " +:+
  "'stabilityai/stable-diffusion-xl-base-1.0', " +:+
  "'stabilityai/stable-diffusion-2-1', " +:+
  "'runwayml/stable-diffusion-v1-5']".

(** A request at the bounds: width 256, height 2048, steps 1. *)
Definition boundary_request : pydict :=
  <["prompt" := JStr "a cat"]>
  (<["width" := JInt 256]> (<["height" := JInt 2048]> (<["steps" := JInt 1]> ∅))).

(** A request that omits the width and is at the upper bound in height
    and steps. *)
Definition upper_bound_request : pydict :=
  <["prompt" := JStr "a cat"]> (<["height" := JInt 2048]> (<["steps" := JInt 12]> ∅)).

(** A request that carries a seed. *)
Definition seeded_request : pydict :=
  <["prompt" := JStr "a cat"]> (<["seed" := JInt 42]> ∅).

(** A request that supplies the three optional fields. *)
Definition tuned_request : pydict :=
  <["prompt" := JStr "a cat"]>
  (<["negative_prompt" := JStr "text, watermark"]>
  (<["guidance_scale" := JInt 3]>
  (<["seed" := JInt 7]> ∅))).

(** The body sent to [/generate-simple] and the one sent to [/generate]. *)
Definition simple_body : pydict := {[ "prompt" := JStr "a cat" ]}.

Definition full_body : pydict :=
  <["prompt" := JStr "a cat"]>
  (<["model" := JStr "black-forest-labs/FLUX.1-schnell-Free"]>
  (<["width" := JInt 1024]>
  (<["height" := JInt 1024]>
  (<["steps" := JInt 12]>
  (<["n" := JInt 1]> ∅))))).

(** The upstream body [{"data": [{"url": "x"}, {"b64_json": "y"}, {}]}]. *)
Definition example_entries : list pydict :=
  [ {[ "url" := JStr "x" ]}; {[ "b64_json" := JStr "y" ]}; ∅ ].

Definition example_reply : response :=
  Response 200 "" (Ok (JObj {[ "data" := JArr (JObj <$> example_entries) ]})).

(** The upstream body [{"data": [{"b64_json": null}]}]. *)
Definition null_inline_entries : list pydict := [ {[ "b64_json" := JNull ]} ].

Definition reply_null_inline : response :=
  Response 200 "" (Ok (JObj {[ "data" := JArr (JObj <$> null_inline_entries) ]})).

(** Upstream bodies [{}], [{"data": []}] and [{"data": [{}, {}]}]. *)
Definition reply_without_data : response := Response 200 "{}" (Ok (JObj ∅)).

Definition reply_empty_data : response :=
  Response 200 "" (Ok (JObj {[ "data" := JArr [] ]})).

Definition reply_blank_entries : response :=
  Response 200 "" (Ok (JObj {[ "data" := JArr (JObj <$> [∅; ∅]) ]})).

(** An upstream answer of status 503 whose body is not JSON. *)
Definition reply_unavailable : response :=
  Response 503 "upstream overloaded" (Raised (OtherException "not JSON")).

Definition world_answering (resp : response) : world :=
  World (λ _ _ _ _, Ok resp) "2025-01-01T00:00:00".

Definition example_world : world := world_answering example_reply.

Definition world_timing_out : world :=
  World (λ _ _ _ _, Raised (Timeout "read timed out")) "2025-01-01T00:00:00".

Definition world_unreachable : world :=
  World (λ _ _ _ _, Raised (RequestException "connection refused"))
        "2025-01-01T00:00:00".

(** ** Requests of the repository's client script (test.py) *)

(** [test_data] of [test_advanced_generation] (test.py, lines 112-121),
    posted to [/generate]. *)
Definition ADVANCED_TEST_DATA : pydict :=
  <["prompt" := JStr "A majestic dragon flying over a castle at sunset, fantasy art, highly detailed"]>
  (<["model" := JStr "black-forest-labs/FLUX.1-schnell"]>
  (<["width" := JInt 1024]>
  (<["height" := JInt 1024]>
  (<["steps" := JInt 20]>
  (<["n" := JInt 1]>
  (<["negative_prompt" := JStr "blurry, low quality, distorted"]>
  (<["seed" := JInt 42]> ∅))))))).

(** The three requests of [test_error_handling] (test.py, lines 164,
    178-181 and 195-199): the first goes to [/generate-simple], the other
    two to [/generate]; the script expects status 400 for each. *)
Definition MISSING_PROMPT_TEST_DATA : pydict := ∅.

Definition INVALID_MODEL_TEST_DATA : pydict :=
  <["prompt" := JStr "test"]> (<["model" := JStr "invalid-model-name"]> ∅).

Definition INVALID_DIMENSIONS_TEST_DATA : pydict :=
  <["prompt" := JStr "test"]> (<["width" := JInt 100]> (<["height" := JInt 3000]> ∅)).

(** ** Vocabulary of the further properties *)

(** The keys every payload has. *)
Definition PAYLOAD_KEYS : list string :=
  ["model"; "prompt"; "width"; "height"; "steps"; "n";
   "negative_prompt"; "guidance_scale"].

(** A request with a field the gateway does not know. *)
Definition decorated_request : pydict :=
  <["prompt" := JStr "a cat"]> (<["style" := JStr "oil"]> (<["n" := JInt (-3)]> ∅)).

(** The keys of the success response. *)
Definition RESPONSE_KEYS : list string :=
  ["success"; "images"; "prompt"; "model"; "parameters"; "timestamp"].

(** A request whose width is a string. *)
Definition wide_request : pydict :=
  <["prompt" := JStr "a cat"]> (<["width" := JStr "1024"]> ∅).

(** An upstream answer of status 200 whose body is an HTML page. *)
Definition reply_html : response :=
  Response 200 "<html>" (Raised (OtherException "Expecting value")).

(** An upstream body whose [data] is [null]. *)
Definition reply_null_data : response :=
  Response 200 "" (Ok (JObj {[ "data" := JNull ]})).

(** The error the loop raises on an item, if it does. *)
Definition entry_error (item : json) : option py_error :=
  match item with
  | JObj m =>
      match m !! "url", m !! "b64_json" with
      | None, Some (JStr _ | JArr _ | JObj _) => None
      | None, Some b64 => Some (TypeError "len" b64)
      | _, _ => None
      end
  | _ => Some (AttributeError "keys" item)
  end.

(** An upstream body with a good entry followed by a number. *)
Definition reply_stray_item : response :=
  Response 200 ""
    (Ok (JObj {[ "data" := JArr ((JObj <$> [ {[ "url" := JStr "x" ]} ]) ++
                                 [JInt 7; JObj {[ "url" := JStr "z" ]}]) ]})).

(** The entry has one of the two fields. *)
Definition has_encoding (entry : pydict) : bool :=
  match entry !! "url", entry !! "b64_json" with
  | None, None => false
  | _, _ => true
  end.

(** The fields the validator reads. *)
Definition VALIDATED_FIELDS : list string :=
  ["prompt"; "model"; "width"; "height"; "steps"].

(** The body goes with the status: an [error] text and a status other
    than 200, or no [error] key and status 200. *)
Definition well_formed_answer (r : pydict) (s : Z) : Prop :=
  (s ≠ 200 ∧ ∃ msg, r !! "error" = Some (JStr msg)) ∨
  (s = 200 ∧ r !! "error" = None).

(** * Proofs *)

(** ** The validator, stage by stage *)

Lemma key_truthy key : py_truthy (JStr key) = true ↔ key ≠ "".
Proof.
  simpl. destruct (bool_decide_reflect (key = "")); simpl; split; intros; congruence.
Qed.

Lemma py_lt_num v a c :
  num_value v = Some a → py_lt v c = Return (number_lt a c).
Proof. unfold py_lt. by intros ->. Qed.

Lemma py_gt_num v a c :
  num_value v = Some a → py_gt v c = Return (number_gt a c).
Proof. unfold py_gt. by intros ->. Qed.

(** The vocabulary of the statements against the comparisons of the
    code: [below v c] is [v < c] evaluating to [True], [above v c] is
    [v > c] evaluating to [True], [passes v lo hi] is both [v < lo] and
    [v > hi] evaluating to [False]. *)
Lemma below_spec (v : json) (c : Z) :
  below v c ↔ ∃ a, num_value v = Some a ∧ number_lt a c = true.
Proof.
  split.
  - destruct v as [ | b | z | q | | | | | negative]; cbn [below num_value]; try done;
      intros H; eexists; (split; [done |]); cbn [number_lt];
      try apply bool_decide_eq_true; try done; by rewrite <- Z2Qc_inj_lt.
  - intros (a & Ha & H).
    destruct v as [ | b | z | q | | | | | negative]; cbn [below num_value] in *;
      try done; injection Ha as <-; cbn [number_lt] in H;
      try apply bool_decide_eq_true in H; try done; by rewrite Z2Qc_inj_lt.
Qed.

Lemma above_spec (v : json) (c : Z) :
  above v c ↔ ∃ a, num_value v = Some a ∧ number_gt a c = true.
Proof.
  split.
  - destruct v as [ | b | z | q | | | | | negative]; cbn [above num_value]; try done;
      intros H; eexists; (split; [done |]); cbn [number_gt];
      try apply bool_decide_eq_true; try done;
      [by rewrite <- Z2Qc_inj_lt | by rewrite <- Z2Qc_inj_lt | by rewrite H].
  - intros (a & Ha & H).
    destruct v as [ | b | z | q | | | | | negative]; cbn [above num_value] in *;
      try done; injection Ha as <-; cbn [number_gt] in H;
      try apply bool_decide_eq_true in H; try done;
      [by rewrite Z2Qc_inj_lt | by rewrite Z2Qc_inj_lt | by destruct negative].
Qed.

Lemma within_spec (v : json) (lo hi : Z) :
  within v lo hi ↔
  ∃ q, num_value v = Some (Finite q) ∧ (Qc_of_Z lo ≤ q)%Qc ∧ (q ≤ Qc_of_Z hi)%Qc.
Proof.
  split.
  - destruct v as [ | b | z | q | | | | | negative]; cbn [within num_value]; try done;
      intros [Hlo Hhi]; eexists; (split; [done |]); try done;
      by rewrite <- !Z2Qc_inj_le.
  - intros (a & Ha & Hlo & Hhi).
    destruct v as [ | b | z | q | | | | | negative]; cbn [within num_value] in *;
      try done; injection Ha as <-; try done; by rewrite !Z2Qc_inj_le.
Qed.

Lemma passes_spec (v : json) (lo hi : Z) :
  passes v lo hi ↔
  ∃ a, num_value v = Some a ∧ number_lt a lo = false ∧ number_gt a hi = false.
Proof.
  unfold passes. rewrite within_spec. split.
  - intros [(q & Hq & Hlo & Hhi) | ->].
    + exists (Finite q). cbn [number_lt number_gt].
      by rewrite !bool_decide_eq_false_2 by (by apply Qcle_not_lt).
    + by exists NotANumber.
  - intros ([q | [] |] & Ha & Hlo & Hhi); cbn [number_lt number_gt negb] in *;
      [left | done | done | right].
    + exists q. split; [done |].
      apply bool_decide_eq_false in Hlo, Hhi.
      split; by apply Qcnot_lt_le.
    + by destruct v.
Qed.

(** A number in the interval passes the range test. *)
Lemma within_passes (v : json) (lo hi : Z) : within v lo hi → passes v lo hi.
Proof. by left. Qed.

Ltac name_fields data :=
  fold (effective data "prompt" JNull) (effective data "model" (JStr AVAILABLE_MODELS_0))
       (effective data "width" (JInt 1024)) (effective data "height" (JInt 1024))
       (effective data "steps" (JInt 12)) (effective data "n" (JInt 1));
  fold (prompt_of data) (model_of data) (width_of data) (height_of data)
       (steps_of data) (n_of data).

Lemma core_validated key data :
  validated key data → _generate_image_core key (JObj data) = dispatch_of key data.
Proof.
  intros [Hk Hp Hs Hm (aw & Hw & Hw1 & Hw2)%passes_spec (ah & Hh & Hh1 & Hh2)%passes_spec
            (ast & Hst & Hs1 & Hs2)%passes_spec].
  unfold _generate_image_core, dispatch_of, payload_of.
  apply key_truthy in Hk. rewrite Hk. cbn [negb dict_get bind]. name_fields data.
  rewrite Hp, Hm. cbn [negb]. unfold py_or.
  rewrite (py_lt_num _ _ _ Hw), (py_gt_num _ _ _ Hw), (py_lt_num _ _ _ Hh),
    (py_gt_num _ _ _ Hh), (py_lt_num _ _ _ Hst), (py_gt_num _ _ _ Hst).
  cbn [bind].
  rewrite Hw1, Hw2, Hh1, Hh2, Hs1, Hs2.
  cbn [bind py_in py_getitem].
  generalize dependent (prompt_of data). intros prompt _ Hs.
  unfold effective.
  destruct (data !! "negative_prompt"), (data !! "seed"), (data !! "guidance_scale");
    cbn [bind default]; destruct prompt; done.
Qed.

(** For an integer, [within] is the interval of [Z]. *)
Lemma within_int (z lo hi : Z) : within (JInt z) lo hi ↔ lo ≤ z ≤ hi.
Proof. done. Qed.

Lemma below_int (z c : Z) : below (JInt z) c ↔ z < c.
Proof. done. Qed.

Lemma above_int (z c : Z) : above (JInt z) c ↔ c < z.
Proof. done. Qed.

(** An integer passes the range test exactly when it is in the interval. *)
Lemma passes_int (z lo hi : Z) : passes (JInt z) lo hi ↔ lo ≤ z ≤ hi.
Proof.
  unfold passes. cbn [within]. split; [| by left].
  by intros [? | [=]].
Qed.

Lemma passes_int_value (v : json) (z lo hi : Z) :
  v = JInt z → lo ≤ z ≤ hi → passes v lo hi.
Proof. intros -> ?. by apply passes_int. Qed.

Lemma compare_cases (v : json) (lo hi : Z) :
  num_value v = None ∨ below v lo ∨ above v hi ∨ passes v lo hi.
Proof.
  rewrite below_spec, above_spec, passes_spec.
  destruct (num_value v) as [a|] eqn:Ha; [right | by left].
  destruct (number_lt a lo) eqn:Hlo; [left; by exists a |].
  destruct (number_gt a hi) eqn:Hhi; [right; left; by exists a |].
  right; right. by exists a.
Qed.

Ltac enter_core data Hk Hp Hm :=
  unfold _generate_image_core; rewrite (proj2 (key_truthy _) Hk);
  cbn [negb dict_get bind]; name_fields data;
  rewrite Hp, Hm; cbn [negb]; unfold py_or.

Ltac compare_with H :=
  rewrite ?(py_lt_num _ _ _ H), ?(py_gt_num _ _ _ H); cbn [bind].

Lemma core_no_key (d : json) : _generate_image_core "" d = Return (ERR_NO_KEY, 500).
Proof. reflexivity. Qed.

Lemma core_prompt key data :
  key ≠ "" → py_truthy (prompt_of data) = false →
  _generate_image_core key (JObj data) = Return (ERR_PROMPT, 400).
Proof.
  intros Hk Hp. unfold _generate_image_core. rewrite (proj2 (key_truthy _) Hk).
  cbn [negb dict_get bind]. name_fields data. by rewrite Hp.
Qed.

Lemma core_model key data :
  key ≠ "" → py_truthy (prompt_of data) = true →
  in_AVAILABLE_MODELS (model_of data) = false →
  _generate_image_core key (JObj data) = Return (ERR_MODEL, 400).
Proof. intros Hk Hp Hm. by enter_core data Hk Hp Hm. Qed.

Lemma core_dimensions key data :
  key ≠ "" → py_truthy (prompt_of data) = true →
  in_AVAILABLE_MODELS (model_of data) = true →
  below (width_of data) 256 ∨ above (width_of data) 2048 ∨
    (passes (width_of data) 256 2048 ∧
     (below (height_of data) 256 ∨ above (height_of data) 2048)) →
  _generate_image_core key (JObj data) = Return (ERR_DIMENSIONS, 400).
Proof.
  rewrite !below_spec, !above_spec, passes_spec.
  intros Hk Hp Hm Hbad. enter_core data Hk Hp Hm.
  destruct Hbad as [(a & Ha & Hlt) | [(a & Ha & Hgt) | [(a & Ha & Hlo & Hhi) Hh]]];
    compare_with Ha.
  - by rewrite Hlt.
  - destruct (number_lt a 256); cbn [bind]; [done |].
    by rewrite Hgt.
  - rewrite Hlo, Hhi. cbn [bind].
    destruct Hh as [(ah & Hah & Hlt) | (ah & Hah & Hgt)]; compare_with Hah.
    + by rewrite Hlt.
    + destruct (number_lt ah 256); cbn [bind]; [done |].
      by rewrite Hgt.
Qed.

Ltac pass_dimensions Hw Hh :=
  let a := fresh "a" in let Ha := fresh "Ha" in
  let Hlo := fresh "Hlo" in let Hhi := fresh "Hhi" in
  apply passes_spec in Hw; apply passes_spec in Hh;
  destruct Hw as (a & Ha & Hlo & Hhi); compare_with Ha;
  rewrite Hlo, Hhi; cbn [bind];
  clear a Ha Hlo Hhi;
  destruct Hh as (a & Ha & Hlo & Hhi); compare_with Ha;
  rewrite Hlo, Hhi; cbn [bind];
  clear a Ha Hlo Hhi.

Lemma core_steps key data :
  key ≠ "" → py_truthy (prompt_of data) = true →
  in_AVAILABLE_MODELS (model_of data) = true →
  passes (width_of data) 256 2048 → passes (height_of data) 256 2048 →
  below (steps_of data) 1 ∨ above (steps_of data) 12 →
  _generate_image_core key (JObj data) = Return (ERR_STEPS, 400).
Proof.
  rewrite below_spec, above_spec.
  intros Hk Hp Hm Hw Hh Hbad. enter_core data Hk Hp Hm. pass_dimensions Hw Hh.
  destruct Hbad as [(a & Ha & Hlt) | (a & Ha & Hgt)]; compare_with Ha.
  - by rewrite Hlt.
  - destruct (number_lt a 1); cbn [bind]; [done |].
    by rewrite Hgt.
Qed.

(** An operand that does not compare with an integer, or a prompt that
    cannot be sliced, ends the call with the interpreter's error. *)
Lemma core_raises key data :
  key ≠ "" → py_truthy (prompt_of data) = true →
  in_AVAILABLE_MODELS (model_of data) = true →
  num_value (width_of data) = None ∨
  (passes (width_of data) 256 2048 ∧
   (num_value (height_of data) = None ∨
    (passes (height_of data) 256 2048 ∧
     (num_value (steps_of data) = None ∨
      (passes (steps_of data) 1 12 ∧ ¬ sliceable (prompt_of data)))))) →
  ∃ e, _generate_image_core key (JObj data) = Raise (Interpreter e).
Proof.
  intros Hk Hp Hm Hbad. enter_core data Hk Hp Hm.
  destruct Hbad as [Hn | [Hw [Hn | [Hh [Hn | [Hs Hn]]]]]].
  - unfold py_lt at 1. rewrite Hn. cbn [bind]. eauto.
  - apply passes_spec in Hw as (a & Ha & Hlo & Hhi); compare_with Ha.
    rewrite Hlo, Hhi. cbn [bind].
    unfold py_lt at 1. rewrite Hn. cbn [bind]. eauto.
  - pass_dimensions Hw Hh. unfold py_lt at 1. rewrite Hn. cbn [bind]. eauto.
  - pass_dimensions Hw Hh.
    apply passes_spec in Hs as (a & Ha & Hlo & Hhi); compare_with Ha.
    rewrite Hlo, Hhi.
    cbn [bind py_in py_getitem].
    destruct (data !! "negative_prompt"), (data !! "seed"), (data !! "guidance_scale");
      cbn [bind]; destruct (prompt_of data); cbn in Hn |- *; eauto; by destruct Hn.
Qed.

Lemma core_classified key data :
  core_result key data (_generate_image_core key (JObj data)).
Proof.
  destruct (decide (key = "")) as [->|Hk]; [by apply CR_no_key |].
  destruct (py_truthy (prompt_of data)) eqn:Hp;
    [| rewrite core_prompt by done; by apply CR_prompt].
  destruct (in_AVAILABLE_MODELS (model_of data)) eqn:Hm;
    [| rewrite core_model by done; by apply CR_model].
  assert (∀ c, (∃ e, _generate_image_core key (JObj data) = Raise (Interpreter e)) →
               c = _generate_image_core key (JObj data) → core_result key data c)
    as Hraise.
  { intros c [e He] ->. rewrite He. by apply CR_raise. }
  destruct (compare_cases (width_of data) 256 2048) as [Hw | [Hw | [Hw | Hw]]];
    [eapply Hraise; [apply core_raises|]; by auto
     | rewrite core_dimensions by auto; apply CR_dimensions; by auto
     | rewrite core_dimensions by auto; apply CR_dimensions; by auto |].
  destruct (compare_cases (height_of data) 256 2048) as [Hh | [Hh | [Hh | Hh]]];
    [eapply Hraise; [apply core_raises|]; by auto
     | rewrite core_dimensions by auto; apply CR_dimensions; by auto
     | rewrite core_dimensions by auto; apply CR_dimensions; by auto |].
  destruct (compare_cases (steps_of data) 1 12) as [Hs | [Hs | [Hs | Hs]]];
    [eapply Hraise; [apply core_raises|]; by auto 7
     | rewrite core_steps by auto; apply CR_steps; by auto
     | rewrite core_steps by auto; apply CR_steps; by auto |].
  assert (sliceable (prompt_of data) ∨ ¬ sliceable (prompt_of data)) as [Hsl | Hsl]
    by (destruct (prompt_of data); cbn; tauto).
  - rewrite core_validated by done. by apply CR_dispatch.
  - eapply Hraise; [apply core_raises|]; by auto 9.
Qed.

(** ** The translator loop *)

Lemma results_from_imap (k : nat) (entries : list pydict) :
  results_from (Z.of_nat k) entries =
  omap id (imap (λ i entry, spec_image_result (Z.of_nat (k + i)) entry) entries).
Proof.
  revert k. induction entries as [|e rest IH]; intros k; [done |].
  cbn [results_from imap omap]. rewrite Nat.add_0_r.
  replace (Z.of_nat k + 1) with (Z.of_nat (S k)) by lia. rewrite IH.
  assert (imap ((λ i entry, spec_image_result (Z.of_nat (k + i)) entry) ∘ S) rest =
          imap (λ i entry, spec_image_result (Z.of_nat (S k + i)) entry) rest) as ->.
  { apply imap_ext. intros i x _. cbn. do 2 f_equal. lia. }
  unfold id at 1. by destruct (spec_image_result (Z.of_nat k) e).
Qed.

Lemma results_from_spec (entries : list pydict) :
  results_from 0 entries = spec_translate entries.
Proof. apply (results_from_imap 0). Qed.

(** The loop on well-formed entries. *)
Lemma process_images_ok (entries : list pydict) (i : Z) (acc : list json) :
  Forall inline_sized entries →
  process_images i (JObj <$> entries) acc = Return (acc ++ results_from i entries)%list.
Proof.
  intros Hall. revert i acc.
  induction Hall as [|e rest He _ IH]; intros i acc; cbn [fmap list_fmap process_images results_from].
  { by rewrite app_nil_r. }
  cbn [dict_keys py_in py_getitem bind]. unfold spec_image_result.
  destruct (e !! "url") as [u|] eqn:Hu; cbn [bind option_list].
  { rewrite IH. by rewrite <- app_assoc. }
  destruct (e !! "b64_json") as [b|] eqn:Hb; cbn [bind option_list].
  - specialize (He Hu b Hb).
    destruct b; try done; cbn [py_len bind]; rewrite IH; by rewrite <- app_assoc.
  - apply IH.
Qed.

(** The loop neither calls upstream nor reads the clock. *)
Lemma process_images_pure (items : list json) (i : Z) (acc : list json) :
  (∃ out, process_images i items acc = Return out) ∨
  (∃ e, process_images i items acc = Raise (Interpreter e)).
Proof.
  revert i acc. induction items as [|x rest IH]; intros i acc; cbn [process_images].
  { left. eauto. }
  destruct x; cbn [dict_keys bind]; try (right; eauto; fail).
  cbn [py_in py_getitem bind].
  destruct (m !! "url") as [u|]; cbn [bind]; [apply IH |].
  destruct (m !! "b64_json") as [b|]; cbn [bind]; [| apply IH].
  destruct b; cbn [py_len bind]; try (right; eauto; fail); apply IH.
Qed.

(** Whenever the loop completes, the items were objects and the images
    are the specified ones. *)
Lemma process_images_inv (items : list json) (i : Z) (acc out : list json) :
  process_images i items acc = Return out →
  ∃ entries, items = JObj <$> entries ∧ Forall inline_sized entries ∧
             out = (acc ++ results_from i entries)%list.
Proof.
  revert i acc. induction items as [|x rest IH]; intros i acc; cbn [process_images].
  { intros [= <-]. exists []. by rewrite app_nil_r. }
  destruct x; cbn [dict_keys bind]; try done.
  cbn [py_in py_getitem bind].
  destruct (m !! "url") as [u|] eqn:Hu; cbn [bind].
  { intros (es & -> & Hall & ->)%IH. exists (m :: es). split; [done |].
    split; [constructor; [intros ?; congruence | done] |].
    cbn [results_from]. unfold spec_image_result. rewrite Hu. cbn.
    by rewrite <- app_assoc. }
  destruct (m !! "b64_json") as [b|] eqn:Hb; cbn [bind].
  - destruct b; cbn [py_len bind]; try done;
      (intros (es & -> & Hall & ->)%IH; exists (m :: es); split; [done |];
       split; [constructor; [intros _ b' Hb'; rewrite Hb in Hb'; by injection Hb' as <- | done] |];
       cbn [results_from]; unfold spec_image_result; rewrite Hu, Hb; cbn;
       by rewrite <- app_assoc).
  - intros (es & -> & Hall & ->)%IH. exists (m :: es). split; [done |].
    split; [constructor; [intros _ ? ?; congruence | done] |].
    cbn [results_from]. unfold spec_image_result. by rewrite Hu, Hb.
Qed.

(** ** The translator on a decoded body *)

Section Translate.

Variables (prompt model width height steps n : json) (payload : pydict).

Let translate := translate_response prompt model width height steps n payload.
Let success := success_body prompt model width height steps n payload.

Lemma translate_ok (body : pydict) (entries : list pydict) :
  body !! "data" = Some (JArr (JObj <$> entries)) → entries ≠ [] →
  Forall inline_sized entries →
  translate (JObj body) =
  DatetimeNow (λ ts, Return (success (results_from 0 entries) ts, 200)).
Proof.
  intros Hd Hne Hall. unfold translate, translate_response, py_and.
  cbn [py_in py_getitem bind]. rewrite Hd. cbn [py_len py_iter bind].
  assert ((0 <? Z.of_nat (length (JObj <$> entries))) = true) as ->
    by (by destruct entries).
  cbn [py_iter bind]. by rewrite process_images_ok.
Qed.

Lemma translate_no_images (body : pydict) :
  body !! "data" = None ∨ body !! "data" = Some (JArr []) →
  translate (JObj body) = Return (ERR_NO_IMAGES, 500).
Proof.
  intros [Hd | Hd]; unfold translate, translate_response, py_and;
    cbn [py_in py_getitem bind]; by rewrite Hd.
Qed.

(** Every way the translator can end. *)
Lemma translate_cases (result : json) :
  translate result = Return (ERR_NO_IMAGES, 500) ∨
  (∃ e, translate result = Raise (Interpreter e)) ∨
  (∃ body entries,
     result = JObj body ∧ body !! "data" = Some (JArr (JObj <$> entries)) ∧
     entries ≠ [] ∧ Forall inline_sized entries ∧
     translate result =
     DatetimeNow (λ ts, Return (success (results_from 0 entries) ts, 200))).
Proof.
  unfold translate, translate_response, py_and.
  destruct result as [ | | | | s | l | body | | ]; cbn [py_in bind]; eauto.
  - destruct (String.index 0 "data" s); cbn [bind py_getitem]; eauto.
  - destruct (existsb _ l); cbn [bind py_getitem]; eauto.
  - destruct (body !! "data") as [d|] eqn:Hd; cbn [bind py_getitem]; eauto.
    rewrite Hd. cbn [bind].
    destruct d as [ | | | | s | l | m | | ]; cbn [py_len bind]; eauto.
    + destruct s as [|c s]; cbn; eauto.
    + destruct l as [|x l]; [cbn; by eauto |].
      cbn [length]. cbn [Z.ltb Z.of_nat Z.compare py_iter bind].
      destruct (process_images_pure (x :: l) 0 []) as [[out Hout] | [e He]].
      * apply process_images_inv in Hout as Hinv.
        destruct Hinv as (es & Hes & Hall & ->). rewrite Hout. cbn [bind].
        right; right. exists body, es. rewrite Hes in *.
        repeat split; try done. by destruct es.
      * rewrite He. cbn [bind]. eauto.
    + destruct (map_to_list m) as [|[k v] kvs] eqn:Hm.
      * apply map_to_list_empty_iff in Hm as ->. rewrite map_size_empty. cbn. eauto.
      * assert (size m ≠ 0%nat) as Hsz.
        { intros ->%map_size_empty_iff. by rewrite map_to_list_empty in Hm. }
        destruct (size m) as [|k0]; [done |].
        cbn [Z.ltb Z.of_nat Z.compare py_iter bind]. rewrite Hm. cbn. eauto.
Qed.

End Translate.

(** ** Running a dispatched request *)

Lemma run_dispatch (w : world) (key : string) (data : pydict) :
  run w (dispatch_of key data) =
  match requests_post w TOGETHER_API_URL (request_headers key) (payload_of data) 120 with
  | Raised e => run w (try_except (Raise e) core_handler)
  | Ok resp =>
      if negb (status_code resp =? 200) then
        Ok (error_body (upstream_error_msg resp), status_code resp)
      else
        match json_body resp with
        | Raised e => run w (try_except (Raise e) core_handler)
        | Ok result =>
            run w (try_except
                     (translate_response (prompt_of data) (model_of data)
                        (width_of data) (height_of data) (steps_of data)
                        (n_of data) (payload_of data) result)
                     core_handler)
        end
  end.
Proof.
  unfold dispatch_of, dispatch_and_translate. cbn [bind try_except run].
  destruct (requests_post w _ _ _ _) as [resp|e]; cbn [lift bind try_except run]; [| done].
  destruct (negb _); cbn [lift bind try_except run]; [done |].
  by destruct (json_body resp).
Qed.

Lemma upstream_call_dispatch (key : string) (data : pydict) :
  upstream_call (dispatch_of key data) =
  Some (TOGETHER_API_URL, request_headers key, payload_of data, 120).
Proof. reflexivity. Qed.

(** A request reaches the upstream call exactly when it is validated, and
    the call then carries [payload_of]. *)
Lemma upstream_call_inv (key : string) (d : json) u h p t :
  upstream_call (_generate_image_core key d) = Some (u, h, p, t) →
  ∃ data, d = JObj data ∧ validated key data ∧
          _generate_image_core key d = dispatch_of key data ∧
          u = TOGETHER_API_URL ∧ h = request_headers key ∧
          p = payload_of data ∧ t = 120.
Proof.
  intros Hcall.
  assert (∃ data, d = JObj data) as [data ->].
  { destruct d; eauto; exfalso; revert Hcall; unfold _generate_image_core;
      by destruct (py_truthy (JStr key)). }
  exists data. split; [done |].
  destruct (core_classified key data) as [ | | | | | | Hv]; try done.
  rewrite <- (core_validated _ _ Hv) in Hcall |- *.
  rewrite (core_validated _ _ Hv), upstream_call_dispatch in Hcall.
  by injection Hcall as <- <- <- <-.
Qed.

Lemma validated_call (key : string) (data : pydict) :
  validated key data →
  upstream_call (_generate_image_core key (JObj data)) =
  Some (TOGETHER_API_URL, request_headers key, payload_of data, 120).
Proof. intros Hv. by rewrite core_validated. Qed.

(** The call at the root of the core's program is the only one of a run. *)
Lemma posted_core (w : world) (key : string) (d : json) :
  posted w (_generate_image_core key d) =
  match upstream_call (_generate_image_core key d) with
  | Some (_, _, p, _) => [p]
  | None => []
  end.
Proof.
  destruct d as [ | | | | | | data | | ];
    try (unfold _generate_image_core; by destruct (py_truthy (JStr key))).
  destruct (core_classified key data) as [ | | | | | | Hv]; try done.
  rewrite upstream_call_dispatch.
  unfold dispatch_of, dispatch_and_translate. cbn [bind try_except posted].
  f_equal.
  destruct (requests_post w _ _ _ _) as [resp|e]; cbn [lift bind try_except];
    [| by destruct e].
  destruct (negb _); cbn [lift bind try_except posted]; [done |].
  destruct (json_body resp) as [result|e]; cbn [lift bind try_except];
    [| by destruct e].
  destruct (translate_cases (prompt_of data) (model_of data) (width_of data)
              (height_of data) (steps_of data) (n_of data) (payload_of data) result)
    as [Hc | [[e Hc] | (body & entries & _ & _ & _ & _ & Hc)]];
    by rewrite Hc.
Qed.

(** Validation of a concrete request, by evaluation of its fields. *)
Ltac validate :=
  split; [done | reflexivity | exact I | reflexivity | ..];
  (eapply passes_int_value; [reflexivity | lia]).

Lemma success_images pr mo wi he st n p imgs ts :
  success_body pr mo wi he st n p imgs ts !! "images" = Some (JArr imgs).
Proof. unfold success_body. by simplify_map_eq. Qed.

Lemma success_flag pr mo wi he st n p imgs ts :
  success_body pr mo wi he st n p imgs ts !! "success" = Some (JBool true).
Proof. unfold success_body. by simplify_map_eq. Qed.

(** The run of a dispatched request whose upstream answer is a 200 with a
    decoded body. *)
Lemma run_translated (w : world) (key : string) (data : pydict) u h p t resp result :
  upstream_call (_generate_image_core key (JObj data)) = Some (u, h, p, t) →
  requests_post w u h p t = Ok resp →
  status_code resp = 200 →
  json_body resp = Ok result →
  p = payload_of data ∧
  run w (_generate_image_core key (JObj data)) =
  run w (try_except
           (translate_response (prompt_of data) (model_of data) (width_of data)
              (height_of data) (steps_of data) (n_of data) p result)
           core_handler).
Proof.
  intros (data' & [= <-] & _ & -> & -> & -> & -> & ->)%upstream_call_inv Hpost Hst Hjs.
  split; [done |]. by rewrite run_dispatch, Hpost, Hst, Hjs.
Qed.

(** ** The translated images *)

Example example_translation :
  spec_translate example_entries =
  [ JObj (<["url" := JStr "x"]> (<["index" := JInt 0]> ∅));
    JObj (<["b64_json" := JStr "y"]> (<["index" := JInt 1]> ∅)) ].
Proof. vm_compute. exact eq_refl. Qed.

(** A route hands over what the core returns, and turns what it raises
    into a status 500. *)
Lemma run_try_return {A : Type} (w : world) (c : io A) (f : exn → A) :
  run w (try_except c (λ e, Some (Return (f e)))) =
  match run w c with
  | Ok a => Ok a
  | Raised e => Ok (f e)
  end.
Proof.
  induction c as [a | e | u hd p t k IH | k IH]; cbn [run try_except];
    [done | done | apply IH | apply IH].
Qed.

Lemma generate_image_on_object (str_error : py_error → string) (w : world)
    (key : string) (data : pydict) :
  py_truthy (JObj data) = true →
  run w (generate_image str_error key (Ok (JObj data))) =
  match run w (_generate_image_core key (JObj data)) with
  | Ok a => Ok a
  | Raised e => Ok (error_body ("Internal server error: " +:+ py_str str_error e), 500)
  end.
Proof.
  intros Ht. unfold generate_image. rewrite run_try_return. cbn [lift bind].
  by rewrite Ht.
Qed.

(** X20. The translation rule on the replies the loop gets through.  On a
    reply whose [data] array is non-empty, whose entries are JSON objects,
    and in which every inline payload that is read is one [len] accepts,
    the translator yields at most one result per entry, by key priority: a
    [{url, index}] result when the entry has a [url] field (whether or
    not it also has [b64_json]), else a [{b64_json, index}] result when it
    has a [b64_json] field, else nothing, the request still succeeding;
    [index] is the zero-based position of the entry in the upstream
    array. *)
Theorem translator_key_priority (w : world) (key : string) (data : pydict)
    u h p t (resp : response) (body : pydict) (entries : list pydict) :
  upstream_call (_generate_image_core key (JObj data)) = Some (u, h, p, t) →
  requests_post w u h p t = Ok resp →
  status_code resp = 200 →
  json_body resp = Ok (JObj body) →
  body !! "data" = Some (JArr (JObj <$> entries)) →
  entries ≠ [] →
  Forall inline_sized entries →
  ∃ r, run w (_generate_image_core key (JObj data)) = Ok (r, 200) ∧
       r !! "images" = Some (JArr (spec_translate entries)).
Proof.
  intros Hcall Hpost Hst Hjs Hd Hne Hall.
  destruct (run_translated _ _ _ _ _ _ _ _ _ Hcall Hpost Hst Hjs) as [_ ->].
  rewrite (translate_ok _ _ _ _ _ _ _ _ _ Hd Hne Hall). cbn [try_except run].
  eexists. split; [done |]. by rewrite success_images, results_from_spec.
Qed.

Lemma translator_key_priority_witness :
  ∃ r, run example_world (_generate_image_core "key" (JObj example_request)) = Ok (r, 200) ∧
       r !! "images" = Some (JArr (spec_translate example_entries)).
Proof.
  apply (translator_key_priority example_world "key" example_request
           TOGETHER_API_URL (request_headers "key") (payload_of example_request) 120
           example_reply {[ "data" := JArr (JObj <$> example_entries) ]}).
  - apply validated_call. validate.
  - reflexivity.
  - reflexivity.
  - reflexivity.
  - reflexivity.
  - discriminate.
  - repeat constructor; intros Hu b Hb; vm_compute in Hu, Hb; try discriminate.
    injection Hb as <-. exact I.
Defined.

(** C1. On the upstream reply [{"data": [{"b64_json": null}]}], status
    200, to a valid request, the translation rule gives one
    [{b64_json, index}] result for the entry, which has a [b64_json] field
    and no [url]; the core gives none: [len(image_data['b64_json'])],
    evaluated for the log line of line 148, raises [TypeError] before the
    result is appended, the exception is not one the core handles, and
    [/generate] answers status 500. *)
Theorem null_inline_payload_fails_request (str_error : py_error → string) :
  spec_translate null_inline_entries =
    [JObj (<["b64_json" := JNull]> (<["index" := JInt 0]> ∅))] ∧
  run (world_answering reply_null_inline)
      (_generate_image_core "key" (JObj example_request)) =
    Raised (Interpreter (TypeError "len" JNull)) ∧
  run (world_answering reply_null_inline)
      (generate_image str_error "key" (Ok (JObj example_request))) =
    Ok ({[ "error" := JStr ("Internal server error: " +:+
                            str_error (TypeError "len" JNull)) ]}, 500).
Proof.
  assert (run (world_answering reply_null_inline)
              (_generate_image_core "key" (JObj example_request)) =
          Raised (Interpreter (TypeError "len" JNull))) as Hrun.
  { destruct (run_translated (world_answering reply_null_inline) "key" example_request
                TOGETHER_API_URL (request_headers "key") (payload_of example_request)
                120 reply_null_inline
                (JObj {[ "data" := JArr (JObj <$> null_inline_entries) ]}))
      as [_ ->]; [apply validated_call; validate | reflexivity..|].
    vm_compute. exact eq_refl. }
  split; [vm_compute; exact eq_refl | split; [exact Hrun |]].
  rewrite generate_image_on_object by reflexivity. by rewrite Hrun.
Qed.

(** An entry with both fields gives a URL result. *)
Example url_takes_priority (i : Z) (acc : list json) :
  process_images i
    [JObj (<["url" := JStr "u"]> (<["b64_json" := JStr "b"]> ∅))] acc =
  Return (acc ++ [JObj (<["url" := JStr "u"]> (<["index" := JInt i]> ∅))])%list.
Proof. reflexivity. Qed.

(** An inline payload whose length cannot be taken ends the request in
    the log line of line 148, before any result is built. *)
Example inline_payload_unsized (i : Z) (acc : list json) :
  process_images i [JObj {[ "b64_json" := JNull ]}] acc =
  Raise (Interpreter (TypeError "len" JNull)).
Proof. reflexivity. Qed.

Lemma run_no_images (w : world) (key : string) (data : pydict) u h p t resp body :
  upstream_call (_generate_image_core key (JObj data)) = Some (u, h, p, t) →
  requests_post w u h p t = Ok resp →
  status_code resp = 200 →
  json_body resp = Ok (JObj body) →
  body !! "data" = None ∨ body !! "data" = Some (JArr []) →
  run w (_generate_image_core key (JObj data)) = Ok (ERR_NO_IMAGES, 500).
Proof.
  intros Hcall Hpost Hst Hjs Hd.
  destruct (run_translated _ _ _ _ _ _ _ _ _ Hcall Hpost Hst Hjs) as [_ ->].
  by rewrite translate_no_images.
Qed.

Lemma results_from_nothing (entries : list pydict) (i : Z) :
  Forall (λ e, e !! "url" = None ∧ e !! "b64_json" = None) entries →
  results_from i entries = [].
Proof.
  intros Hall. revert i. induction Hall as [|e rest [Hu Hb] _ IH]; intros i; [done |].
  cbn [results_from]. unfold spec_image_result. by rewrite Hu, Hb, IH.
Qed.

(** C2. When the upstream body has no [data] key, or an empty [data]
    array, the core returns status 500 with the message
    ["No images generated"]; when the array is non-empty and no entry has
    a [url] or a [b64_json] field, it returns status 200 with the success
    flag and an empty [images] list. *)
Theorem no_images_versus_empty_images (w : world) (key : string) (data : pydict)
    u h p t (resp : response) (body : pydict) :
  upstream_call (_generate_image_core key (JObj data)) = Some (u, h, p, t) →
  requests_post w u h p t = Ok resp →
  status_code resp = 200 →
  json_body resp = Ok (JObj body) →
  (body !! "data" = None ∨ body !! "data" = Some (JArr []) →
   run w (_generate_image_core key (JObj data)) =
     Ok ({[ "error" := JStr "No images generated" ]}, 500)) ∧
  (∀ entries : list pydict,
     body !! "data" = Some (JArr (JObj <$> entries)) →
     entries ≠ [] →
     Forall (λ e, e !! "url" = None ∧ e !! "b64_json" = None) entries →
     ∃ r, run w (_generate_image_core key (JObj data)) = Ok (r, 200) ∧
          r !! "success" = Some (JBool true) ∧
          r !! "images" = Some (JArr [])).
Proof.
  intros Hcall Hpost Hst Hjs. split.
  - intros Hd. by rewrite (run_no_images _ _ _ _ _ _ _ _ _ Hcall Hpost Hst Hjs Hd).
  - intros entries Hd Hne Hnone.
    destruct (run_translated _ _ _ _ _ _ _ _ _ Hcall Hpost Hst Hjs) as [_ ->].
    assert (Forall inline_sized entries) as Hall.
    { eapply List.Forall_impl; [| exact Hnone]. intros e [_ Hb] _ b. by rewrite Hb. }
    rewrite (translate_ok _ _ _ _ _ _ _ _ _ Hd Hne Hall). cbn [try_except run].
    eexists. split; [done |].
    by rewrite success_flag, success_images, results_from_nothing.
Qed.

Lemma no_images_versus_empty_images_witness :
  run (world_answering reply_without_data)
      (_generate_image_core "key" (JObj example_request)) =
    Ok ({[ "error" := JStr "No images generated" ]}, 500) ∧
  run (world_answering reply_empty_data)
      (_generate_image_core "key" (JObj example_request)) =
    Ok ({[ "error" := JStr "No images generated" ]}, 500) ∧
  ∃ r, run (world_answering reply_blank_entries)
           (_generate_image_core "key" (JObj example_request)) = Ok (r, 200) ∧
       r !! "success" = Some (JBool true) ∧
       r !! "images" = Some (JArr []).
Proof.
  split; [| split].
  - refine (proj1 (no_images_versus_empty_images (world_answering reply_without_data)
             "key" example_request TOGETHER_API_URL (request_headers "key")
             (payload_of example_request) 120 reply_without_data ∅ _ _ _ _) _);
      [apply validated_call; validate | reflexivity | reflexivity | reflexivity |].
    left. reflexivity.
  - refine (proj1 (no_images_versus_empty_images (world_answering reply_empty_data)
             "key" example_request TOGETHER_API_URL (request_headers "key")
             (payload_of example_request) 120 reply_empty_data
             {[ "data" := JArr [] ]} _ _ _ _) _);
      [apply validated_call; validate | reflexivity | reflexivity | reflexivity |].
    right. reflexivity.
  - refine (proj2 (no_images_versus_empty_images
                     (world_answering reply_blank_entries)
                     "key" example_request TOGETHER_API_URL (request_headers "key")
                     (payload_of example_request) 120 reply_blank_entries
                     {[ "data" := JArr (JObj <$> [∅; ∅]) ]} _ _ _ _) [∅; ∅] _ _ _);
      [apply validated_call; validate | reflexivity | reflexivity | reflexivity
      | reflexivity | discriminate |].
    repeat constructor.
Defined.

(** ** Text of the model-error message *)

Lemma append_nil_r (a : string) : a +:+ "" = a.
Proof.
  induction a as [|c a IH]; [done |].
  change (String c a +:+ "") with (String c (a +:+ "")). by rewrite IH.
Qed.

Lemma append_assoc (a b c : string) : (a +:+ b) +:+ c = a +:+ (b +:+ c).
Proof.
  induction a as [|x a IH]; [done |].
  change ((String x a +:+ b) +:+ c) with (String x ((a +:+ b) +:+ c)).
  by rewrite IH.
Qed.

Lemma occurs_in_append (s msg pre post : string) :
  occurs_in s msg → occurs_in s (pre +:+ msg +:+ post).
Proof.
  intros (a & b & ->). exists (pre +:+ a), (b +:+ post).
  by rewrite !append_assoc.
Qed.

Lemma py_join_occurs (sep : string) (l : list string) (s : string) :
  s ∈ l → occurs_in s (py_join sep l).
Proof.
  induction l as [|x rest IH]; [by intros ?%elem_of_nil |].
  intros [-> | Hin]%elem_of_cons.
  - destruct rest as [|y rest]; cbn [py_join].
    + exists "", "". by rewrite append_nil_r.
    + by exists "", (sep +:+ py_join sep (y :: rest)).
  - destruct rest as [|y rest]; [by apply elem_of_nil in Hin |].
    change (py_join sep (x :: y :: rest))
      with (x +:+ sep +:+ py_join sep (y :: rest)).
    rewrite <- (append_nil_r (py_join sep (y :: rest))), <- append_assoc.
    apply occurs_in_append. auto.
Qed.

Lemma py_repr_list_occurs (l : list string) (s : string) :
  s ∈ l → occurs_in (py_repr_str s) (py_repr_list l).
Proof.
  intros Hin. unfold py_repr_list. apply occurs_in_append, py_join_occurs.
  by apply list_elem_of_fmap_2.
Qed.

Example model_error_text :
  ERR_MODEL !! "error" =
  Some (JStr ("Invalid model. Available models: " +:+
              "['black-forest-labs/FLUX.1-schnell-Free', " +:+
              "'black-forest-labs/FLUX.1-dev', " +:+
              "'stabilityai/stable-diffusion-xl-base-1.0', " +:+
              "'stabilityai/stable-diffusion-2-1', " +:+
              "'runwayml/stable-diffusion-v1-5']")).
Proof. unfold ERR_MODEL, error_body. by rewrite lookup_singleton_eq. Qed.

Lemma occurs_in_quoted (s msg : string) :
  occurs_in (py_repr_str s) msg → occurs_in s msg.
Proof.
  intros (a & b & ->). exists (a +:+ "'"), ("'" +:+ b).
  unfold py_repr_str. by rewrite !append_assoc.
Qed.

Lemma ERR_MODEL_text : ERR_MODEL = {[ "error" := JStr INVALID_MODEL_TEXT ]}.
Proof. reflexivity. Qed.

(** C3. The validator checks, in this order, that the credential is
    configured, that the prompt is present and non-empty, that the model
    is in the enumeration, that width and height are in range, that steps
    is in range; the first check that fails decides the result, whatever
    the fields examined later hold.  Without a credential the result is
    status 500 with the configuration error, for every request body.
    With a credential and without a prompt (absent or falsy) it is status
    400 with the text "Prompt is required".  With a prompt and a model
    outside the enumeration it is status 400 with the text
    [INVALID_MODEL_TEXT], in which every model of the enumeration occurs.
    With a valid model, a width below 256 or above 2048, or a width that
    passes and a height below 256 or above 2048, gives status 400 with
    the dimensions text, whatever steps is.  With dimensions that pass, a
    steps value below 1 or above 12 gives status 400 with the steps
    text. *)
Theorem validator_order (key : string) (data : pydict) :
  (key = "" →
   ∀ d : json,
     _generate_image_core key d =
     Return (<["error" := JStr "Together AI API key not configured"]>
               (<["message" :=
                    JStr "Please set TOGETHER_API_KEY environment variable"]> ∅),
             500)) ∧
  (key ≠ "" →
   py_truthy (prompt_of data) = false →
   _generate_image_core key (JObj data) =
   Return ({[ "error" := JStr "Prompt is required" ]}, 400)) ∧
  (key ≠ "" →
   py_truthy (prompt_of data) = true →
   in_AVAILABLE_MODELS (model_of data) = false →
   _generate_image_core key (JObj data) =
   Return ({[ "error" := JStr INVALID_MODEL_TEXT ]}, 400)) ∧
  (∀ m, m ∈ AVAILABLE_MODELS → occurs_in m INVALID_MODEL_TEXT) ∧
  (key ≠ "" →
   py_truthy (prompt_of data) = true →
   in_AVAILABLE_MODELS (model_of data) = true →
   below (width_of data) 256 ∨ above (width_of data) 2048 ∨
     (passes (width_of data) 256 2048 ∧
      (below (height_of data) 256 ∨ above (height_of data) 2048)) →
   _generate_image_core key (JObj data) =
   Return ({[ "error" :=
                JStr "Width and height must be between 256 and 2048 pixels" ]},
           400)) ∧
  (key ≠ "" →
   py_truthy (prompt_of data) = true →
   in_AVAILABLE_MODELS (model_of data) = true →
   passes (width_of data) 256 2048 →
   passes (height_of data) 256 2048 →
   below (steps_of data) 1 ∨ above (steps_of data) 12 →
   _generate_image_core key (JObj data) =
   Return ({[ "error" :=
                JStr "Steps must be between 1 and 12 for Together AI models" ]},
           400)).
Proof.
  split; [| split; [| split; [| split; [| split]]]].
  - intros -> d. apply core_no_key.
  - apply core_prompt.
  - intros Hk Hp Hm. rewrite core_model by done. by rewrite ERR_MODEL_text.
  - intros m Hm. apply occurs_in_quoted.
    change INVALID_MODEL_TEXT
      with ("Invalid model. Available models: " +:+ py_repr_list AVAILABLE_MODELS).
    rewrite <- (append_nil_r (py_repr_list AVAILABLE_MODELS)).
    by apply occurs_in_append, py_repr_list_occurs.
  - apply core_dimensions.
  - apply core_steps.
Qed.

Lemma validator_order_witness :
  _generate_image_core "" (JObj hopeless_request) =
    Return (<["error" := JStr "Together AI API key not configured"]>
              (<["message" :=
                   JStr "Please set TOGETHER_API_KEY environment variable"]> ∅),
            500) ∧
  _generate_image_core "key" (JObj hopeless_request) =
    Return ({[ "error" := JStr "Prompt is required" ]}, 400) ∧
  _generate_image_core "key" (JObj (<["prompt" := JStr ""]> hopeless_request)) =
    Return ({[ "error" := JStr "Prompt is required" ]}, 400) ∧
  _generate_image_core "key" (JObj (<["prompt" := JStr "a cat"]> hopeless_request)) =
    Return ({[ "error" := JStr INVALID_MODEL_TEXT ]}, 400) ∧
  _generate_image_core "key" (JObj narrow_request) =
    Return ({[ "error" :=
                 JStr "Width and height must be between 256 and 2048 pixels" ]},
            400) ∧
  _generate_image_core "key" (JObj tall_request) =
    Return ({[ "error" :=
                 JStr "Width and height must be between 256 and 2048 pixels" ]},
            400) ∧
  _generate_image_core "key" (JObj slow_request) =
    Return ({[ "error" :=
                 JStr "Steps must be between 1 and 12 for Together AI models" ]},
            400).
Proof.
  split; [| split; [| split; [| split; [| split; [| split]]]]].
  - apply (proj1 (validator_order "" hopeless_request)). reflexivity.
  - apply (proj1 (proj2 (validator_order "key" hopeless_request)));
      [discriminate | vm_compute; exact eq_refl].
  - apply (proj1 (proj2 (validator_order "key"
                           (<["prompt" := JStr ""]> hopeless_request))));
      [discriminate | vm_compute; exact eq_refl].
  - apply (proj1 (proj2 (proj2 (validator_order "key"
                           (<["prompt" := JStr "a cat"]> hopeless_request)))));
      [discriminate | vm_compute; exact eq_refl | vm_compute; exact eq_refl].
  - apply (proj1 (proj2 (proj2 (proj2 (proj2 (validator_order "key" narrow_request))))));
      [discriminate | vm_compute; exact eq_refl | vm_compute; exact eq_refl |].
    left. change (1 < 256). lia.
  - apply (proj1 (proj2 (proj2 (proj2 (proj2 (validator_order "key" tall_request))))));
      [discriminate | vm_compute; exact eq_refl | vm_compute; exact eq_refl |].
    right; right. split.
    + eapply passes_int_value; [reflexivity | lia].
    + right. change (2048 < 3000). lia.
  - apply (proj2 (proj2 (proj2 (proj2 (proj2 (validator_order "key" slow_request))))));
      [discriminate | vm_compute; exact eq_refl | vm_compute; exact eq_refl | ..].
    + eapply passes_int_value; [reflexivity | lia].
    + eapply passes_int_value; [reflexivity | lia].
    + right. change (12 < 99). lia.
Defined.

(** ** The payload, field by field *)

Ltac payload_lookup :=
  unfold payload_of, effective; intros;
  repeat match goal with |- context [match ?o with _ => _ end] => destruct o end;
  by simplify_map_eq.

Lemma payload_model data : payload_of data !! "model" = Some (model_of data).
Proof. payload_lookup. Qed.

Lemma payload_prompt data : payload_of data !! "prompt" = Some (prompt_of data).
Proof. payload_lookup. Qed.

Lemma payload_width data : payload_of data !! "width" = Some (width_of data).
Proof. payload_lookup. Qed.

Lemma payload_height data : payload_of data !! "height" = Some (height_of data).
Proof. payload_lookup. Qed.

Lemma payload_steps data : payload_of data !! "steps" = Some (steps_of data).
Proof. payload_lookup. Qed.

Lemma payload_n data : payload_of data !! "n" = Some (n_of data).
Proof. payload_lookup. Qed.

Lemma payload_negative_prompt data :
  payload_of data !! "negative_prompt" =
  Some (effective data "negative_prompt" (JStr DEFAULT_NEGATIVE_PROMPT)).
Proof. payload_lookup. Qed.

Lemma payload_guidance_scale data :
  payload_of data !! "guidance_scale" =
  Some (effective data "guidance_scale" (JFloat DEFAULT_GUIDANCE_SCALE)).
Proof. payload_lookup. Qed.

Lemma payload_seed data : payload_of data !! "seed" = data !! "seed".
Proof.
  unfold payload_of. destruct (data !! "seed") as [v|] eqn:Hseed; by simplify_map_eq.
Qed.


(** X21. What the validator guarantees of a forwarded payload: in every run
    of the core, under every upstream behaviour, each payload handed to
    [requests.post] has a width, a height and a steps value that passed
    the range test (a number in range, or NaN) and a model of the
    enumeration. *)
Theorem forwarded_values_pass_range_test
    (w : world) (key : string) (d : json) (p : pydict) :
  p ∈ posted w (_generate_image_core key d) →
  (∃ width, p !! "width" = Some width ∧
            (within width 256 2048 ∨ width = JNaN)) ∧
  (∃ height, p !! "height" = Some height ∧
             (within height 256 2048 ∨ height = JNaN)) ∧
  (∃ steps, p !! "steps" = Some steps ∧
            (within steps 1 12 ∨ steps = JNaN)) ∧
  (∃ model, p !! "model" = Some (JStr model) ∧ model ∈ AVAILABLE_MODELS).
Proof.
  rewrite posted_core.
  destruct (upstream_call (_generate_image_core key d)) as [[[[u h] p'] t]|] eqn:Hcall;
    [| by intros ?%elem_of_nil].
  intros ->%list_elem_of_singleton.
  apply upstream_call_inv in Hcall as (data & -> & Hv & _ & _ & _ & -> & _).
  destruct Hv as [_ _ _ Hm Hw Hh Hs].
  repeat split.
  - exists (width_of data). by rewrite payload_width.
  - exists (height_of data). by rewrite payload_height.
  - exists (steps_of data). by rewrite payload_steps.
  - rewrite payload_model. unfold in_AVAILABLE_MODELS in Hm.
    destruct (model_of data) as [ | | | | s | | | | ]; try done.
    exists s. split; [done |]. by apply bool_decide_eq_true in Hm.
Qed.

Lemma forwarded_values_pass_range_test_witness :
  (∃ width, payload_of boundary_request !! "width" = Some width ∧
            (within width 256 2048 ∨ width = JNaN)) ∧
  (∃ height, payload_of boundary_request !! "height" = Some height ∧
             (within height 256 2048 ∨ height = JNaN)) ∧
  (∃ steps, payload_of boundary_request !! "steps" = Some steps ∧
            (within steps 1 12 ∨ steps = JNaN)) ∧
  (∃ model, payload_of boundary_request !! "model" = Some (JStr model) ∧
            model ∈ AVAILABLE_MODELS).
Proof.
  apply (forwarded_values_pass_range_test example_world "key" (JObj boundary_request)).
  rewrite posted_core, validated_call by validate. apply list_elem_of_singleton.
  reflexivity.
Defined.



(** ** Exactness of the range checks *)

Lemma error_body_inj (a b : string) : error_body a = error_body b → a = b.
Proof.
  intros Heq. assert (error_body a !! "error" = error_body b !! "error") as Hl
    by (by rewrite Heq).
  unfold error_body in Hl. rewrite !lookup_singleton_eq in Hl. by injection Hl.
Qed.

Lemma return_inj (a b : pydict) (s s' : Z) :
  @Return (pydict * Z) (a, s) = Return (b, s') → a = b ∧ s = s'.
Proof. by intros [= -> ->]. Qed.

Lemma dispatch_not_return (key : string) (data : pydict) (x : pydict * Z) :
  dispatch_of key data ≠ Return x.
Proof. discriminate. Qed.

(** Once the dimensions have passed, the outcome is decided by the steps
    and by the prompt's type. *)
Lemma core_after_dimensions (key : string) (data : pydict) :
  key ≠ "" → py_truthy (prompt_of data) = true →
  in_AVAILABLE_MODELS (model_of data) = true →
  passes (width_of data) 256 2048 → passes (height_of data) 256 2048 →
  ((below (steps_of data) 1 ∨ above (steps_of data) 12) ∧
   _generate_image_core key (JObj data) = Return (ERR_STEPS, 400)) ∨
  (∃ e, _generate_image_core key (JObj data) = Raise (Interpreter e)) ∨
  (passes (steps_of data) 1 12 ∧
   _generate_image_core key (JObj data) = dispatch_of key data).
Proof.
  intros Hk Hp Hm Hw Hh.
  destruct (compare_cases (steps_of data) 1 12) as [Hs | [Hs | [Hs | Hs]]].
  - right; left. apply core_raises; auto 7.
  - left. split; [by left |]. apply core_steps; auto.
  - left. split; [by right |]. apply core_steps; auto.
  - assert (sliceable (prompt_of data) ∨ ¬ sliceable (prompt_of data)) as [Hsl | Hsl]
      by (destruct (prompt_of data); cbn; tauto).
    + right; right. split; [done |]. by apply core_validated.
    + right; left. apply core_raises; auto 9.
Qed.

Lemma below_not_passes (v : json) (lo hi : Z) : below v lo → passes v lo hi → False.
Proof.
  intros (a & Ha & Hlt)%below_spec (a' & Ha' & Hlo & _)%passes_spec.
  rewrite Ha in Ha'. injection Ha' as <-. congruence.
Qed.

Lemma above_not_passes (v : json) (lo hi : Z) : above v hi → passes v lo hi → False.
Proof.
  intros (a & Ha & Hgt)%above_spec (a' & Ha' & _ & Hhi)%passes_spec.
  rewrite Ha in Ha'. injection Ha' as <-. congruence.
Qed.

(** C5. For integer width and height (1024 standing for an omitted one),
    on a request that gets past the prompt and model checks, the core
    answers status 400 with the dimensions message exactly when one of
    the two is below 256 or above 2048, so that 256 and 2048 pass; and,
    the dimensions being in range, for an integer steps value (12
    standing for an omitted one) it answers status 400 with the steps
    message exactly when steps is below 1 or above 12, so that 1 and 12
    pass. *)
Theorem range_checks_exact (key : string) (data : pydict) (width height : Z) :
  key ≠ "" →
  py_truthy (prompt_of data) = true →
  in_AVAILABLE_MODELS (model_of data) = true →
  effective data "width" (JInt 1024) = JInt width →
  effective data "height" (JInt 1024) = JInt height →
  (_generate_image_core key (JObj data) = Return (ERR_DIMENSIONS, 400) ↔
   width < 256 ∨ width > 2048 ∨ height < 256 ∨ height > 2048) ∧
  (∀ steps : Z,
     effective data "steps" (JInt 12) = JInt steps →
     256 ≤ width ≤ 2048 → 256 ≤ height ≤ 2048 →
     (_generate_image_core key (JObj data) = Return (ERR_STEPS, 400) ↔
      steps < 1 ∨ steps > 12)).
Proof.
  intros Hk Hp Hm Hw Hh. fold (width_of data) in Hw. fold (height_of data) in Hh.
  split; [split |].
  - intros Hcore.
    destruct (decide (256 ≤ width ≤ 2048 ∧ 256 ≤ height ≤ 2048)) as [[Hwr Hhr] | ?];
      [exfalso | lia].
    apply passes_int in Hwr, Hhr. rewrite <- Hw in Hwr. rewrite <- Hh in Hhr.
    destruct (core_after_dimensions key data Hk Hp Hm Hwr Hhr)
      as [[_ Hc] | [[e Hc] | [_ Hc]]]; rewrite Hc in Hcore.
    + apply return_inj in Hcore as [Hmsg _]. by apply error_body_inj in Hmsg.
    + done.
    + by apply dispatch_not_return in Hcore.
  - intros Hbad. apply core_dimensions; [done.. |]. rewrite Hw, Hh.
    rewrite passes_int, !below_int, !above_int. lia.
  - intros steps Hs Hwr Hhr. fold (steps_of data) in Hs.
    apply passes_int in Hwr, Hhr. rewrite <- Hw in Hwr. rewrite <- Hh in Hhr.
    split.
    + intros Hcore.
      destruct (core_after_dimensions key data Hk Hp Hm Hwr Hhr)
        as [[Hbad _] | [[e Hc] | [_ Hc]]].
      * rewrite Hs, below_int, above_int in Hbad. lia.
      * by rewrite Hc in Hcore.
      * rewrite Hc in Hcore. by apply dispatch_not_return in Hcore.
    + intros Hbad. apply core_steps; [done.. |].
      rewrite Hs, below_int, above_int. lia.
Qed.

Lemma range_checks_exact_witness :
  (_generate_image_core "key" (JObj upper_bound_request) = Return (ERR_DIMENSIONS, 400) ↔
   1024 < 256 ∨ 1024 > 2048 ∨ 2048 < 256 ∨ 2048 > 2048) ∧
  (∀ steps : Z,
     effective upper_bound_request "steps" (JInt 12) = JInt steps →
     256 ≤ 1024 ≤ 2048 → 256 ≤ 2048 ≤ 2048 →
     (_generate_image_core "key" (JObj upper_bound_request) = Return (ERR_STEPS, 400) ↔
      steps < 1 ∨ steps > 12)).
Proof.
  apply (range_checks_exact "key" upper_bound_request 1024 2048).
  - discriminate.
  - vm_compute. exact eq_refl.
  - vm_compute. exact eq_refl.
  - vm_compute. exact eq_refl.
  - vm_compute. exact eq_refl.
Defined.

(** ** Outcomes of a run *)

Lemma ok_inj (a b : pydict) (s s' : Z) :
  @Ok (pydict * Z) (a, s) = Ok (b, s') → a = b ∧ s = s'.
Proof. by intros [= -> ->]. Qed.

(** What the two [except] clauses make of an exception. *)
Lemma run_handled (w : world) (e : exn) :
  run w (try_except (Raise e) core_handler) =
  match e with
  | Timeout _ => Ok (ERR_TIMEOUT, 408)
  | RequestException msg => Ok (error_body ("Request failed: " +:+ msg), 500)
  | _ => Raised e
  end.
Proof. by destruct e. Qed.

(** A status 200 comes from one place only: a validated request, an
    upstream answer with status 200 and a body whose [data] is a non-empty
    array of objects, translated by the loop. *)
Lemma run_success_inv (w : world) (key : string) (d : json) (r : pydict) :
  run w (_generate_image_core key d) = Ok (r, 200) →
  ∃ data resp body entries,
    d = JObj data ∧ validated key data ∧
    requests_post w TOGETHER_API_URL (request_headers key) (payload_of data) 120 =
      Ok resp ∧
    status_code resp = 200 ∧
    json_body resp = Ok (JObj body) ∧
    body !! "data" = Some (JArr (JObj <$> entries)) ∧
    entries ≠ [] ∧ Forall inline_sized entries ∧
    r = success_body (prompt_of data) (model_of data) (width_of data)
          (height_of data) (steps_of data) (n_of data) (payload_of data)
          (results_from 0 entries) (now_isoformat w).
Proof.
  intros Hrun.
  assert (∃ data, d = JObj data) as [data ->].
  { destruct d; eauto; exfalso; revert Hrun; unfold _generate_image_core;
      destruct (py_truthy (JStr key)); cbn; try done;
      by intros [_ ?]%ok_inj. }
  revert Hrun.
  destruct (core_classified key data) as [ | | | | | | Hv]; cbn [run];
    try (by intros [_ ?]%ok_inj); try done.
  rewrite run_dispatch.
  destruct (requests_post w _ _ _ _) as [resp|e] eqn:Hpost; cycle 1.
  { rewrite run_handled. destruct e; try done; by intros [_ ?]%ok_inj. }
  destruct (status_code resp =? 200) eqn:Hst; cbn [negb]; cycle 1.
  { intros [_ Heq]%ok_inj. rewrite Heq in Hst. done. }
  apply Z.eqb_eq in Hst.
  destruct (json_body resp) as [result|e] eqn:Hjs; cycle 1.
  { rewrite run_handled. destruct e; try done; by intros [_ ?]%ok_inj. }
  destruct (translate_cases (prompt_of data) (model_of data) (width_of data)
              (height_of data) (steps_of data) (n_of data) (payload_of data) result)
    as [Hc | [[e Hc] | (body & entries & -> & Hd & Hne & Hall & Hc)]];
    rewrite Hc; cbn [try_except core_handler run];
    try done; try (by intros [_ ?]%ok_inj).
  intros [<- _]%ok_inj. by exists data, resp, body, entries.
Qed.

(** ** The echoed parameters *)

Lemma success_parameters pr mo wi he st n p imgs ts :
  ∃ params,
    success_body pr mo wi he st n p imgs ts !! "parameters" = Some (JObj params) ∧
    params !! "width" = Some wi ∧ params !! "height" = Some he ∧
    params !! "steps" = Some st ∧ params !! "n" = Some n ∧
    params !! "guidance_scale" = Some (default JNull (p !! "guidance_scale")) ∧
    params !! "negative_prompt" = Some (default JNull (p !! "negative_prompt")) ∧
    ∀ k, k ∉ ECHOED_PARAMETERS → params !! k = None.
Proof.
  unfold success_body. eexists. split; [by simplify_map_eq |].
  repeat split; try by simplify_map_eq.
  intros k Hk. unfold ECHOED_PARAMETERS in Hk.
  repeat (rewrite lookup_insert_ne by (intros <-; apply Hk; set_solver)).
  apply lookup_empty.
Qed.

Lemma run_success (w : world) (key : string) (data : pydict)
    (resp : response) (body : pydict) (entries : list pydict) :
  validated key data →
  requests_post w TOGETHER_API_URL (request_headers key) (payload_of data) 120 = Ok resp →
  status_code resp = 200 →
  json_body resp = Ok (JObj body) →
  body !! "data" = Some (JArr (JObj <$> entries)) →
  entries ≠ [] → Forall inline_sized entries →
  run w (_generate_image_core key (JObj data)) =
  Ok (success_body (prompt_of data) (model_of data) (width_of data)
        (height_of data) (steps_of data) (n_of data) (payload_of data)
        (results_from 0 entries) (now_isoformat w), 200).
Proof.
  intros Hv Hpost Hst Hjs Hd Hne Hall.
  rewrite (core_validated _ _ Hv), run_dispatch, Hpost, Hst, Hjs. cbn [negb Z.eqb].
  by rewrite (translate_ok _ _ _ _ _ _ _ _ _ Hd Hne Hall).
Qed.

Lemma example_entries_sized : Forall inline_sized example_entries.
Proof.
  repeat constructor; intros Hu b Hb; vm_compute in Hu, Hb; try discriminate.
  by injection Hb as <-.
Qed.

(** C6 as stated fails: the seed of [seeded_request] is forwarded in the
    payload and is absent from the echoed [parameters]. *)
Lemma parameters_echo_counterexample :
  ∃ r params,
    upstream_call (_generate_image_core "key" (JObj seeded_request)) =
      Some (TOGETHER_API_URL, request_headers "key", payload_of seeded_request, 120) ∧
    payload_of seeded_request !! "seed" = Some (JInt 42) ∧
    run example_world (_generate_image_core "key" (JObj seeded_request)) = Ok (r, 200) ∧
    r !! "parameters" = Some (JObj params) ∧
    params !! "seed" = None.
Proof.
  assert (validated "key" seeded_request) as Hv by validate.
  destruct (success_parameters (prompt_of seeded_request) (model_of seeded_request)
              (width_of seeded_request) (height_of seeded_request)
              (steps_of seeded_request) (n_of seeded_request)
              (payload_of seeded_request) (results_from 0 example_entries)
              (now_isoformat example_world))
    as (params & Hp & _ & _ & _ & _ & _ & _ & Hother).
  eexists _, params. split; [by apply validated_call |].
  split; [rewrite payload_seed; vm_compute; exact eq_refl |].
  split; [| split; [exact Hp |]].
  - apply (run_success example_world "key" seeded_request example_reply
             {[ "data" := JArr (JObj <$> example_entries) ]} example_entries);
      [exact Hv | reflexivity | reflexivity | reflexivity | reflexivity
      | discriminate | apply example_entries_sized].
  - apply Hother. apply (bool_decide_unpack _). vm_compute. exact I.
Qed.

(** C6, amended. On every successful generation the [parameters] object
    of the response has exactly the keys [width], [height], [steps], [n],
    [guidance_scale] and [negative_prompt], each with the value sent in
    the upstream payload (defaults included); a forwarded seed is not
    echoed. *)
Theorem parameters_echo_payload (w : world) (key : string) (d : json)
    u h p t (r : pydict) :
  upstream_call (_generate_image_core key d) = Some (u, h, p, t) →
  run w (_generate_image_core key d) = Ok (r, 200) →
  ∃ params,
    r !! "parameters" = Some (JObj params) ∧
    ∀ k, params !! k = if bool_decide (k ∈ ECHOED_PARAMETERS) then p !! k else None.
Proof.
  intros (data & -> & _ & _ & _ & _ & -> & _)%upstream_call_inv
         (data' & resp & body & entries & [= <-] & _ & _ & _ & _ & _ & _ & _ & ->)%run_success_inv.
  destruct (success_parameters (prompt_of data) (model_of data) (width_of data)
              (height_of data) (steps_of data) (n_of data) (payload_of data)
              (results_from 0 entries) (now_isoformat w))
    as (params & Hp & Hwi & Hhe & Hst & Hn & Hg & Hnp & Hother).
  exists params. split; [done |]. intros k.
  destruct (bool_decide_reflect (k ∈ ECHOED_PARAMETERS)) as [Hin | Hout]; [| auto].
  unfold ECHOED_PARAMETERS in Hin.
  repeat (apply elem_of_cons in Hin as [-> | Hin]); [..| by apply elem_of_nil in Hin].
  - by rewrite Hwi, payload_width.
  - by rewrite Hhe, payload_height.
  - by rewrite Hst, payload_steps.
  - by rewrite Hn, payload_n.
  - by rewrite Hg, payload_guidance_scale.
  - by rewrite Hnp, payload_negative_prompt.
Qed.

Lemma parameters_echo_payload_witness :
  ∃ params,
    success_body (prompt_of seeded_request) (model_of seeded_request)
      (width_of seeded_request) (height_of seeded_request)
      (steps_of seeded_request) (n_of seeded_request) (payload_of seeded_request)
      (results_from 0 example_entries) (now_isoformat example_world)
      !! "parameters" = Some (JObj params) ∧
    ∀ k, params !! k =
         if bool_decide (k ∈ ECHOED_PARAMETERS)
         then payload_of seeded_request !! k else None.
Proof.
  apply (parameters_echo_payload example_world "key" (JObj seeded_request)
           TOGETHER_API_URL (request_headers "key") (payload_of seeded_request) 120).
  - apply validated_call. validate.
  - apply (run_success example_world "key" seeded_request example_reply
             {[ "data" := JArr (JObj <$> example_entries) ]} example_entries);
      [validate | reflexivity | reflexivity | reflexivity | reflexivity
      | discriminate | apply example_entries_sized].
Defined.

(** ** Upstream failures *)

(** C7. Once the request is dispatched, the outcome of the upstream call
    decides the result: a timeout gives status 408; an upstream answer
    whose status is not 200 gives that same status, with the message
    ["Together AI API error: <status>"] followed, when the upstream body
    text is not empty, by [" - "] and that text; any other failure of the
    [requests] library gives status 500. *)
Theorem dispatch_outcome_mapping (w : world) (key : string) (d : json) u h p t :
  upstream_call (_generate_image_core key d) = Some (u, h, p, t) →
  (∀ msg, requests_post w u h p t = Raised (Timeout msg) →
     run w (_generate_image_core key d) =
     Ok ({[ "error" := JStr "Request timeout - image generation took too long" ]},
         408)) ∧
  (∀ resp, requests_post w u h p t = Ok resp → status_code resp ≠ 200 →
     run w (_generate_image_core key d) =
     Ok ({[ "error" :=
              JStr (("Together AI API error: " +:+ pretty (status_code resp)) +:+
                    (if bool_decide (text resp = "") then ""
                     else " - " +:+ text resp)) ]},
         status_code resp)) ∧
  (∀ msg, requests_post w u h p t = Raised (RequestException msg) →
     run w (_generate_image_core key d) =
     Ok ({[ "error" := JStr ("Request failed: " +:+ msg) ]}, 500)).
Proof.
  intros (data & -> & _ & -> & -> & -> & -> & ->)%upstream_call_inv.
  repeat split.
  - intros msg Hpost. by rewrite run_dispatch, Hpost.
  - intros resp Hpost Hst. rewrite run_dispatch, Hpost.
    apply Z.eqb_neq in Hst. rewrite Hst. cbn [negb].
    unfold upstream_error_msg, error_body. cbn [py_truthy].
    destruct (bool_decide (text resp = "")); cbn [negb]; [| done].
    by rewrite append_nil_r.
  - intros msg Hpost. by rewrite run_dispatch, Hpost.
Qed.

Example reply_unavailable_message :
  upstream_error_msg reply_unavailable =
  "Together AI API error: 503 - upstream overloaded".
Proof. vm_compute. exact eq_refl. Qed.

Lemma dispatch_outcome_mapping_witness :
  run world_timing_out (_generate_image_core "key" (JObj example_request)) =
    Ok ({[ "error" := JStr "Request timeout - image generation took too long" ]},
        408) ∧
  run (world_answering reply_unavailable)
      (_generate_image_core "key" (JObj example_request)) =
    Ok ({[ "error" :=
             JStr (("Together AI API error: " +:+ pretty 503) +:+
                   (if bool_decide ("upstream overloaded" = "") then ""
                    else " - " +:+ "upstream overloaded")) ]}, 503) ∧
  run world_unreachable (_generate_image_core "key" (JObj example_request)) =
    Ok ({[ "error" := JStr ("Request failed: " +:+ "connection refused") ]}, 500).
Proof.
  split; [| split].
  - refine (proj1 (dispatch_outcome_mapping world_timing_out "key"
                     (JObj example_request) TOGETHER_API_URL (request_headers "key")
                     (payload_of example_request) 120 _) "read timed out" _);
      [apply validated_call; validate | reflexivity].
  - refine (proj1 (proj2 (dispatch_outcome_mapping (world_answering reply_unavailable)
                     "key" (JObj example_request) TOGETHER_API_URL
                     (request_headers "key") (payload_of example_request) 120 _))
                  reply_unavailable _ _);
      [apply validated_call; validate | reflexivity | discriminate].
  - refine (proj2 (proj2 (dispatch_outcome_mapping world_unreachable "key"
                     (JObj example_request) TOGETHER_API_URL (request_headers "key")
                     (payload_of example_request) 120 _)) "connection refused" _);
      [apply validated_call; validate | reflexivity].
Defined.

(** ** The simplified route *)

Lemma run_try_ok {A : Type} (w : world) (c : io A) (h : exn → option (io A)) (x : A) :
  run w c = Ok x → run w (try_except c h) = Ok x.
Proof.
  induction c as [a | e | u hd p t k IH | k IH]; cbn [run try_except]; try done.
  - apply IH.
  - apply IH.
Qed.

Lemma full_body_validated (key : string) : key ≠ "" → validated key full_body.
Proof. intros Hk. validate. Qed.

Lemma simple_route_core (str_error : py_error → string) (key : string) :
  generate_image_simple str_error key (Ok (JObj simple_body)) =
  try_except (_generate_image_core key (JObj full_body))
    (λ e, Some (Return (error_body (py_str str_error e), 500))).
Proof.
  unfold generate_image_simple, simple_body. cbn [lift bind dict_get].
  by rewrite lookup_singleton_eq.
Qed.

Lemma full_route_core (str_error : py_error → string) (key : string) :
  generate_image str_error key (Ok (JObj full_body)) =
  try_except (_generate_image_core key (JObj full_body))
    (λ e, Some (Return
       (error_body ("Internal server error: " +:+ py_str str_error e), 500))).
Proof.
  unfold generate_image. cbn [lift bind py_truthy].
  assert (size full_body = 6%nat) as -> by (vm_compute; exact eq_refl).
  reflexivity.
Qed.

(** C8. [/generate-simple] on [{"prompt": "a cat"}] and [/generate] on the
    body with the prompt, the default model, width 1024, height 1024,
    steps 12 and n 1 hand the same dictionary to the core; they send the
    same upstream call, payload included, and whenever the core returns
    under some upstream behaviour, both routes answer with that result. *)
Theorem simple_route_matches_defaults (str_error : py_error → string) (key : string) :
  enhanced_data (JStr "a cat") = full_body ∧
  upstream_call (generate_image_simple str_error key (Ok (JObj simple_body))) =
    upstream_call (generate_image str_error key (Ok (JObj full_body))) ∧
  (key ≠ "" →
   upstream_call (generate_image_simple str_error key (Ok (JObj simple_body))) =
     Some (TOGETHER_API_URL, request_headers key, payload_of full_body, 120)) ∧
  (∀ (w : world) (result : pydict * Z),
     run w (_generate_image_core key (JObj full_body)) = Ok result →
     run w (generate_image_simple str_error key (Ok (JObj simple_body))) = Ok result ∧
     run w (generate_image str_error key (Ok (JObj full_body))) = Ok result).
Proof.
  rewrite simple_route_core, full_route_core.
  split; [reflexivity |]. split; [| split].
  - destruct (decide (key = "")) as [-> | Hk]; [done |].
    by rewrite (core_validated _ _ (full_body_validated _ Hk)).
  - intros Hk. by rewrite (core_validated _ _ (full_body_validated _ Hk)).
  - intros w result Hrun. split; by apply run_try_ok.
Qed.

Lemma simple_route_matches_defaults_witness :
  ∃ result : pydict * Z,
    result.2 = 200 ∧
    run example_world
        (generate_image_simple (λ _, "") "key" (Ok (JObj simple_body))) = Ok result ∧
    run example_world
        (generate_image (λ _, "") "key" (Ok (JObj full_body))) = Ok result.
Proof.
  eexists. split; [| apply (proj2 (proj2 (proj2
                       (simple_route_matches_defaults (λ _, "") "key"))) example_world);
                     apply (run_success example_world "key" full_body example_reply
                              {[ "data" := JArr (JObj <$> example_entries) ]}
                              example_entries);
                     [validate | reflexivity | reflexivity | reflexivity | reflexivity
                     | discriminate | apply example_entries_sized]].
  reflexivity.
Defined.

(** ** Optional fields of the payload *)

(** C9. In the payload of every dispatched request, [negative_prompt] is
    the caller's value when the request has the key and the fixed guard
    string otherwise; [guidance_scale] is the caller's value when the
    request has the key and 7.5 otherwise; [seed] is present exactly when
    the request has the key, with the caller's value. *)
Theorem payload_optional_fields (key : string) (data : pydict) u h p t :
  upstream_call (_generate_image_core key (JObj data)) = Some (u, h, p, t) →
  p !! "negative_prompt" =
    Some (match data !! "negative_prompt" with
          | Some supplied => supplied
          | None => JStr "blurry, low quality, distorted, pixelated, artifacts, bad anatomy"
          end) ∧
  p !! "guidance_scale" =
    Some (match data !! "guidance_scale" with
          | Some supplied => supplied
          | None => JFloat (Q2Qc (75 # 10))
          end) ∧
  p !! "seed" = data !! "seed".
Proof.
  intros (data' & [= <-] & _ & _ & _ & _ & -> & _)%upstream_call_inv.
  rewrite payload_negative_prompt, payload_guidance_scale, payload_seed.
  unfold effective, default. repeat split.
  destruct (data !! "guidance_scale"); [done |]. do 2 f_equal.
  by apply Qc_is_canon.
Qed.

Lemma payload_optional_fields_witness :
  (payload_of example_request !! "negative_prompt" =
     Some (match example_request !! "negative_prompt" with
           | Some supplied => supplied
           | None => JStr "blurry, low quality, distorted, pixelated, artifacts, bad anatomy"
           end) ∧
   payload_of example_request !! "guidance_scale" =
     Some (match example_request !! "guidance_scale" with
           | Some supplied => supplied
           | None => JFloat (Q2Qc (75 # 10))
           end) ∧
   payload_of example_request !! "seed" = example_request !! "seed") ∧
  (payload_of tuned_request !! "negative_prompt" =
     Some (match tuned_request !! "negative_prompt" with
           | Some supplied => supplied
           | None => JStr "blurry, low quality, distorted, pixelated, artifacts, bad anatomy"
           end) ∧
   payload_of tuned_request !! "guidance_scale" =
     Some (match tuned_request !! "guidance_scale" with
           | Some supplied => supplied
           | None => JFloat (Q2Qc (75 # 10))
           end) ∧
   payload_of tuned_request !! "seed" = tuned_request !! "seed").
Proof.
  split.
  - apply (payload_optional_fields "key" example_request TOGETHER_API_URL
             (request_headers "key") (payload_of example_request) 120).
    apply validated_call. validate.
  - apply (payload_optional_fields "key" tuned_request TOGETHER_API_URL
             (request_headers "key") (payload_of tuned_request) 120).
    apply validated_call. validate.
Defined.

(** ** Shape of the images list *)

Lemma spec_image_result_shape (i : Z) (entry : pydict) (image : json) :
  spec_image_result i entry = Some image →
  one_encoding image ∧ image_index image = Some i.
Proof.
  unfold spec_image_result.
  destruct (entry !! "url") as [u|]; [| destruct (entry !! "b64_json") as [b|]];
    intros [= <-]; (split; [| cbn; by simplify_map_eq]).
  - eexists _, i. split; [done |]. split; [by simplify_map_eq |].
    left. split; [| by simplify_map_eq]. exists u. by simplify_map_eq.
  - eexists _, i. split; [done |]. split; [by simplify_map_eq |].
    right. split; [by simplify_map_eq |]. exists b. by simplify_map_eq.
Qed.

Lemma results_from_length (entries : list pydict) (i : Z) :
  (length (results_from i entries) ≤ length entries)%nat.
Proof.
  revert i. induction entries as [|e rest IH]; intros i; cbn [results_from]; [done |].
  rewrite length_app. specialize (IH (i + 1)).
  destruct (spec_image_result i e); cbn; lia.
Qed.

Lemma results_from_shape (entries : list pydict) (i : Z) :
  Forall (λ image, one_encoding image ∧
                   ∃ j, image_index image = Some j ∧ i ≤ j)
         (results_from i entries).
Proof.
  revert i. induction entries as [|e rest IH]; intros i; cbn [results_from];
    [constructor |].
  apply Forall_app. split.
  - destruct (spec_image_result i e) as [image|] eqn:He; cbn; [| constructor].
    apply spec_image_result_shape in He as [? ?].
    repeat constructor; [done |]. exists i. split; [done | lia].
  - eapply List.Forall_impl; [| apply (IH (i + 1))].
    intros image [? (j & ? & ?)]. split; [done |]. exists j. split; [done | lia].
Qed.

Lemma results_from_sorted (entries : list pydict) (i : Z) :
  StronglySorted index_before (results_from i entries).
Proof.
  revert i. induction entries as [|e rest IH]; intros i; cbn [results_from];
    [constructor |].
  destruct (spec_image_result i e) as [image|] eqn:He; cbn [option_list app];
    [| apply IH].
  constructor; [apply IH |].
  apply spec_image_result_shape in He as [_ Hi].
  eapply List.Forall_impl; [| apply (results_from_shape rest (i + 1))].
  intros other [_ (j & Hj & ?)]. unfold index_before. rewrite Hi, Hj. lia.
Qed.

(** C10. In every result of status 200, the [images] list is made of
    objects that carry an integer [index] and exactly one of [url] and
    [b64_json]; their indices are strictly increasing; and the list is no
    longer than the [data] array of the upstream body. *)
Theorem images_invariant (w : world) (key : string) (d : json) (r : pydict) :
  run w (_generate_image_core key d) = Ok (r, 200) →
  ∃ (images upstream_data : list json),
    r !! "images" = Some (JArr images) ∧
    Forall one_encoding images ∧
    StronglySorted index_before images ∧
    (∃ u h p t resp body,
       upstream_call (_generate_image_core key d) = Some (u, h, p, t) ∧
       requests_post w u h p t = Ok resp ∧
       json_body resp = Ok (JObj body) ∧
       body !! "data" = Some (JArr upstream_data)) ∧
    (length images ≤ length upstream_data)%nat.
Proof.
  intros (data & resp & body & entries & -> & Hv & Hpost & Hst & Hjs & Hd & Hne &
          Hall & ->)%run_success_inv.
  exists (results_from 0 entries), (JObj <$> entries).
  split; [apply success_images |].
  split; [| split; [apply results_from_sorted | split]].
  - eapply List.Forall_impl; [| apply (results_from_shape entries 0)].
    by intros image [? _].
  - exists TOGETHER_API_URL, (request_headers key), (payload_of data), 120, resp, body.
    by rewrite (validated_call _ _ Hv).
  - rewrite length_fmap. apply results_from_length.
Qed.

Lemma images_invariant_witness :
  ∃ (images upstream_data : list json),
    success_body (prompt_of example_request) (model_of example_request)
      (width_of example_request) (height_of example_request)
      (steps_of example_request) (n_of example_request)
      (payload_of example_request) (results_from 0 example_entries)
      (now_isoformat example_world) !! "images" = Some (JArr images) ∧
    Forall one_encoding images ∧
    StronglySorted index_before images ∧
    (∃ u h p t resp body,
       upstream_call (_generate_image_core "key" (JObj example_request)) =
         Some (u, h, p, t) ∧
       requests_post example_world u h p t = Ok resp ∧
       json_body resp = Ok (JObj body) ∧
       body !! "data" = Some (JArr upstream_data)) ∧
    (length images ≤ length upstream_data)%nat.
Proof.
  apply (images_invariant example_world "key" (JObj example_request)).
  apply (run_success example_world "key" example_request example_reply
           {[ "data" := JArr (JObj <$> example_entries) ]} example_entries);
    [validate | reflexivity | reflexivity | reflexivity | reflexivity
    | discriminate | apply example_entries_sized].
Defined.

(** * Further properties of the code *)

(** ** Upstream calls *)

Lemma core_not_object (key : string) (d : json) :
  key ≠ "" → (∀ data, d ≠ JObj data) →
  _generate_image_core key d = Raise (Interpreter (AttributeError "get" d)).
Proof.
  intros Hk Hd. unfold _generate_image_core. rewrite (proj2 (key_truthy _) Hk).
  destruct d; try done. by destruct (Hd m).
Qed.

(** A handler that answers every exception with a value leaves the calls
    of the body as they are. *)
Lemma posted_try_return {A : Type} (w : world) (c : io A) (f : exn → A) :
  posted w (try_except c (λ e, Some (Return (f e)))) = posted w c.
Proof.
  induction c as [a | e | u hd p t k IH | k IH]; cbn [posted try_except];
    [done | done | by rewrite IH | apply IH].
Qed.

Lemma posted_core_cases (w : world) (key : string) (d : json) :
  posted w (_generate_image_core key d) = [] ∨
  ∃ data, d = JObj data ∧ validated key data ∧
          posted w (_generate_image_core key d) = [payload_of data].
Proof.
  rewrite posted_core.
  destruct (upstream_call (_generate_image_core key d)) as [[[[u h] p] t]|] eqn:Hcall;
    [right | by left].
  apply upstream_call_inv in Hcall as (data & -> & Hv & _ & _ & _ & -> & _).
  by exists data.
Qed.

(** X1. A request makes at most one upstream call, whatever the upstream
    answers (there is no retry), and none at all unless it has passed
    every check of the validator; this holds for the core and for both
    routes. *)
Theorem single_call_after_validation (w : world) (str_error : py_error → string)
    (key : string) (d : json) :
  (posted w (_generate_image_core key d) = [] ∨
   ∃ data, d = JObj data ∧ validated key data ∧
           posted w (_generate_image_core key d) = [payload_of data]) ∧
  (posted w (generate_image str_error key (Ok d)) = [] ∨
   ∃ data, d = JObj data ∧ validated key data ∧
           posted w (generate_image str_error key (Ok d)) = [payload_of data]) ∧
  (posted w (generate_image_simple str_error key (Ok d)) = [] ∨
   ∃ data, d = JObj data ∧ validated key (enhanced_data (prompt_of data)) ∧
           posted w (generate_image_simple str_error key (Ok d)) =
           [payload_of (enhanced_data (prompt_of data))]).
Proof.
  split; [apply posted_core_cases | split].
  - unfold generate_image. rewrite posted_try_return. cbn [lift bind].
    destruct (py_truthy d); cbn [negb]; [apply posted_core_cases | by left].
  - unfold generate_image_simple. rewrite posted_try_return. cbn [lift bind].
    destruct d as [ | | | | | | data | | ]; cbn [dict_get bind]; try by left.
    fold (effective data "prompt" JNull). fold (prompt_of data).
    destruct (py_truthy (prompt_of data)); cbn [negb]; [| by left].
    destruct (posted_core_cases w key (JObj (enhanced_data (prompt_of data))))
      as [? | (data' & [= <-] & ? & ?)]; [by left | right].
    by exists data.
Qed.

(** X2. Every upstream call goes to the fixed generation endpoint, with a
    timeout of 120, and with exactly two headers: the bearer token made
    of the credential and the JSON content type. *)
Theorem upstream_call_shape (key : string) (d : json) u h p t :
  upstream_call (_generate_image_core key d) = Some (u, h, p, t) →
  u = "https://api.together.xyz/v1/images/generations" ∧
  t = 120 ∧
  h !! "Authorization" = Some ("Bearer " +:+ key) ∧
  h !! "Content-Type" = Some "application/json" ∧
  ∀ k, k ≠ "Authorization" → k ≠ "Content-Type" → h !! k = None.
Proof.
  intros (data & -> & _ & _ & -> & -> & _ & ->)%upstream_call_inv.
  unfold request_headers. repeat split; try by simplify_map_eq.
  intros k H1 H2. by rewrite !lookup_insert_ne, lookup_empty.
Qed.

Lemma upstream_call_shape_witness :
  TOGETHER_API_URL = "https://api.together.xyz/v1/images/generations" ∧
  120 = 120 ∧
  request_headers "key" !! "Authorization" = Some ("Bearer " +:+ "key") ∧
  request_headers "key" !! "Content-Type" = Some "application/json" ∧
  ∀ k, k ≠ "Authorization" → k ≠ "Content-Type" → request_headers "key" !! k = None.
Proof.
  apply (upstream_call_shape "key" (JObj example_request) TOGETHER_API_URL
           (request_headers "key") (payload_of example_request) 120).
  apply validated_call. validate.
Defined.

(** ** Contents of the payload and of the success response *)

Lemma payload_other (data : pydict) (k : string) :
  k ∉ PAYLOAD_KEYS → k ≠ "seed" → payload_of data !! k = None.
Proof.
  intros Hk Hseed. unfold PAYLOAD_KEYS in Hk. unfold payload_of.
  destruct (data !! "seed");
    repeat (rewrite lookup_insert_ne by (intros <-; first [done | apply Hk; set_solver]));
    apply lookup_empty.
Qed.

(** X3. The payload of a dispatched request has the eight keys [model],
    [prompt], [width], [height], [steps], [n], [negative_prompt] and
    [guidance_scale], the key [seed] exactly when the request has it, and
    no other key: a field of the request outside these nine is never
    forwarded.  The prompt is the request's own value and [n] is the
    request's value, or 1, whatever it is. *)
Theorem payload_keys (key : string) (data : pydict) u h p t :
  upstream_call (_generate_image_core key (JObj data)) = Some (u, h, p, t) →
  (∀ k, is_Some (p !! k) ↔
        k ∈ PAYLOAD_KEYS ∨ (k = "seed" ∧ is_Some (data !! "seed"))) ∧
  p !! "prompt" = data !! "prompt" ∧
  p !! "n" = Some (default (JInt 1) (data !! "n")).
Proof.
  intros (data' & [= <-] & Hv & _ & _ & _ & -> & _)%upstream_call_inv.
  split; [| split].
  - intros k. split.
    + intros Hsome.
      destruct (decide (k ∈ PAYLOAD_KEYS)) as [? | Hout]; [by left | right].
      destruct (decide (k = "seed")) as [-> | Hseed].
      * by rewrite payload_seed in Hsome.
      * rewrite payload_other in Hsome by done. by destruct Hsome.
    + intros [Hin | [-> Hseed]]; [| by rewrite payload_seed].
      unfold PAYLOAD_KEYS in Hin.
      repeat (apply elem_of_cons in Hin as [-> | Hin]);
        [..| by apply elem_of_nil in Hin].
      * by rewrite payload_model.
      * by rewrite payload_prompt.
      * by rewrite payload_width.
      * by rewrite payload_height.
      * by rewrite payload_steps.
      * by rewrite payload_n.
      * by rewrite payload_negative_prompt.
      * by rewrite payload_guidance_scale.
  - rewrite payload_prompt. destruct Hv as [_ Hp _ _ _ _ _].
    unfold prompt_of, effective in *. by destruct (data !! "prompt").
  - by rewrite payload_n.
Qed.

Lemma payload_keys_witness :
  (∀ k, is_Some (payload_of decorated_request !! k) ↔
        k ∈ PAYLOAD_KEYS ∨ (k = "seed" ∧ is_Some (decorated_request !! "seed"))) ∧
  payload_of decorated_request !! "prompt" = decorated_request !! "prompt" ∧
  payload_of decorated_request !! "n" =
    Some (default (JInt 1) (decorated_request !! "n")).
Proof.
  apply (payload_keys "key" decorated_request TOGETHER_API_URL
           (request_headers "key") (payload_of decorated_request) 120).
  apply validated_call. validate.
Defined.

(** X4. A response of status 200 has exactly the keys [success],
    [images], [prompt], [model], [parameters] and [timestamp]; its
    prompt is the request's own, its model is the model sent upstream (a
    member of the enumeration, the first one when the request names
    none), its timestamp is the reading of the clock, and its success
    flag is true. *)
Theorem success_response_echo (w : world) (key : string) (data r : pydict) :
  run w (_generate_image_core key (JObj data)) = Ok (r, 200) →
  (∀ k, is_Some (r !! k) ↔ k ∈ RESPONSE_KEYS) ∧
  r !! "success" = Some (JBool true) ∧
  r !! "prompt" = data !! "prompt" ∧
  (∃ model, r !! "model" = Some (JStr model) ∧ model ∈ AVAILABLE_MODELS ∧
            (data !! "model" = None → model = "black-forest-labs/FLUX.1-schnell-Free")) ∧
  r !! "timestamp" = Some (JStr (now_isoformat w)).
Proof.
  intros (data' & resp & body & entries & [= <-] & Hv & _ & _ & _ & _ & _ & _ & ->)
         %run_success_inv.
  destruct Hv as [_ Hp _ Hm _ _ _]. unfold success_body.
  split; [| split; [| split; [| split]]].
  - intros k. split.
    + intros Hsome. destruct (decide (k ∈ RESPONSE_KEYS)) as [? | Hout]; [done |].
      unfold RESPONSE_KEYS in Hout.
      repeat (rewrite lookup_insert_ne in Hsome by (intros <-; apply Hout; set_solver)).
      rewrite lookup_empty in Hsome. by destruct Hsome.
    + intros Hin. unfold RESPONSE_KEYS in Hin.
      repeat (apply elem_of_cons in Hin as [-> | Hin]);
        [..| by apply elem_of_nil in Hin]; by simplify_map_eq.
  - by simplify_map_eq.
  - rewrite lookup_insert_ne, lookup_insert_ne, lookup_insert_eq by done.
    unfold prompt_of, effective in *. by destruct (data !! "prompt").
  - unfold in_AVAILABLE_MODELS in Hm. unfold model_of, effective in *.
    destruct (data !! "model") as [[ | | | | m | | | | ]|] eqn:Hmodel; try done.
    + exists m. split; [by simplify_map_eq |].
      split; [by apply bool_decide_eq_true in Hm | done].
    + exists AVAILABLE_MODELS_0. split; [by simplify_map_eq |].
      split; [by apply bool_decide_eq_true in Hm | done].
  - by simplify_map_eq.
Qed.

Lemma success_response_echo_witness :
  ∃ r, run example_world (_generate_image_core "key" (JObj example_request)) = Ok (r, 200) ∧
       r !! "prompt" = example_request !! "prompt" ∧
       r !! "timestamp" = Some (JStr (now_isoformat example_world)).
Proof.
  eexists. split; [| split].
  - apply (run_success example_world "key" example_request example_reply
             {[ "data" := JArr (JObj <$> example_entries) ]} example_entries);
      [validate | reflexivity | reflexivity | reflexivity | reflexivity
      | discriminate | apply example_entries_sized].
  - refine (proj1 (proj2 (proj2 (success_response_echo example_world "key"
                                   example_request _ _)))).
    apply (run_success example_world "key" example_request example_reply
             {[ "data" := JArr (JObj <$> example_entries) ]} example_entries);
      [validate | reflexivity | reflexivity | reflexivity | reflexivity
      | discriminate | apply example_entries_sized].
  - refine (proj2 (proj2 (proj2 (proj2 (success_response_echo example_world "key"
                                   example_request _ _))))).
    apply (run_success example_world "key" example_request example_reply
             {[ "data" := JArr (JObj <$> example_entries) ]} example_entries);
      [validate | reflexivity | reflexivity | reflexivity | reflexivity
      | discriminate | apply example_entries_sized].
Defined.

(** ** Every result of the core and of the routes *)

(** All the ways a run of the core can end. *)
Lemma run_core_cases (w : world) (key : string) (d : json) :
  (∃ e, run w (_generate_image_core key d) = Raised e) ∨
  run w (_generate_image_core key d) = Ok (ERR_NO_KEY, 500) ∨
  (∃ msg s,
     run w (_generate_image_core key d) = Ok (error_body msg, s) ∧ s ≠ 200 ∧
     (s = 400 ∨ s = 408 ∨ s = 500 ∨
      ∃ u h p t resp,
        upstream_call (_generate_image_core key d) = Some (u, h, p, t) ∧
        requests_post w u h p t = Ok resp ∧ status_code resp = s)) ∨
  (∃ r, run w (_generate_image_core key d) = Ok (r, 200) ∧ r !! "error" = None).
Proof.
  destruct d as [ | | | | | | data | | ];
    try (unfold _generate_image_core; destruct (py_truthy (JStr key));
         cbn [negb dict_get bind run]; by eauto).
  destruct (core_classified key data) as [ | | | | | | Hv]; cbn [run]; eauto.
  - right; right; left. eexists _, 400. eauto 10.
  - right; right; left. eexists _, 400. eauto 10.
  - right; right; left. eexists _, 400. eauto 10.
  - right; right; left. eexists _, 400. eauto 10.
  - rewrite run_dispatch, upstream_call_dispatch.
    destruct (requests_post w _ _ _ _) as [resp|e] eqn:Hpost.
    2:{ rewrite run_handled. destruct e; eauto.
        - right; right; left. eexists _, 408. eauto 10.
        - right; right; left. eexists _, 500. eauto 10. }
    destruct (status_code resp =? 200) eqn:Hst; cbn [negb].
    2:{ apply Z.eqb_neq in Hst. right; right; left. eexists _, _.
        split; [done |]. split; [done |]. do 3 right. eauto 10. }
    destruct (json_body resp) as [result|e].
    2:{ rewrite run_handled. destruct e; eauto.
        - right; right; left. eexists _, 408. eauto 10.
        - right; right; left. eexists _, 500. eauto 10. }
    destruct (translate_cases (prompt_of data) (model_of data) (width_of data)
                (height_of data) (steps_of data) (n_of data) (payload_of data) result)
      as [Hc | [[e Hc] | (body & entries & _ & _ & _ & _ & Hc)]];
      rewrite Hc; cbn [try_except core_handler run]; eauto.
    + right; right; left. eexists _, 500. eauto 10.
    + do 3 right. eexists. split; [done |]. unfold success_body.
      by rewrite !lookup_insert_ne, lookup_empty.
Qed.

Lemma error_body_error (msg : string) : error_body msg !! "error" = Some (JStr msg).
Proof. unfold error_body. by rewrite lookup_singleton_eq. Qed.

(** X5. Every answer of the core and of the two routes is of one of two
    kinds: status 200 and a body without [error] key, or a status other
    than 200 and a body whose [error] is a text. *)
Theorem answers_are_well_formed (w : world) (str_error : py_error → string)
    (key : string) (get_json : outcome json) (d : json) (r : pydict) (s : Z) :
  (run w (_generate_image_core key d) = Ok (r, s) → well_formed_answer r s) ∧
  (run w (generate_image str_error key get_json) = Ok (r, s) →
   well_formed_answer r s) ∧
  (run w (generate_image_simple str_error key get_json) = Ok (r, s) →
   well_formed_answer r s).
Proof.
  assert (∀ d', run w (_generate_image_core key d') = Ok (r, s) →
                well_formed_answer r s) as Hcore.
  { intros d' Hrun.
    destruct (run_core_cases w key d')
      as [[e He] | [He | [(msg & s' & He & Hs & _) | (r' & He & Hr)]]];
      rewrite He in Hrun; try done; apply ok_inj in Hrun as [<- <-].
    - left. split; [done |]. eexists. unfold ERR_NO_KEY. by simplify_map_eq.
    - left. split; [done |]. exists msg. apply error_body_error.
    - by right. }
  assert (∀ msg s', s' ≠ 200 → @Ok (pydict * Z) (error_body msg, s') = Ok (r, s) →
                    well_formed_answer r s) as Herr.
  { intros msg s' Hs [<- <-]%ok_inj. left. split; [done |].
    exists msg. apply error_body_error. }
  split; [apply Hcore | split].
  - unfold generate_image. rewrite run_try_return.
    destruct get_json as [data|e]; cbn [lift bind run]; [| by apply Herr].
    destruct (py_truthy data); cbn [negb run]; [| by apply Herr].
    destruct (run w (_generate_image_core key data)) as [[r' s']|e] eqn:Hrun;
      [| by apply Herr].
    intros [<- <-]%ok_inj. by apply (Hcore data).
  - unfold generate_image_simple. rewrite run_try_return.
    destruct get_json as [data|e]; cbn [lift bind run]; [| by apply Herr].
    destruct data as [ | | | | | | m | | ]; cbn [dict_get bind run]; try by apply Herr.
    destruct (py_truthy _); cbn [negb run]; [| by apply Herr].
    destruct (run w (_generate_image_core key _)) as [[r' s']|e] eqn:Hrun;
      [| by apply Herr].
    intros [<- <-]%ok_inj. by apply (Hcore _ Hrun).
Qed.

(** X6. The status the core returns is 200, 400, 408 or 500, or else it
    is the status of the upstream answer, passed on as it is. *)
Theorem core_status_codes (w : world) (key : string) (d : json) (r : pydict) (s : Z) :
  run w (_generate_image_core key d) = Ok (r, s) →
  s = 200 ∨ s = 400 ∨ s = 408 ∨ s = 500 ∨
  ∃ u h p t resp,
    upstream_call (_generate_image_core key d) = Some (u, h, p, t) ∧
    requests_post w u h p t = Ok resp ∧ status_code resp = s.
Proof.
  intros Hrun.
  destruct (run_core_cases w key d)
    as [[e He] | [He | [(msg & s' & He & _ & Hs) | (r' & He & _)]]];
    rewrite He in Hrun; try done; apply ok_inj in Hrun as [<- <-]; [auto | | auto].
  destruct Hs as [? | [? | [? | ?]]]; auto 6.
Qed.

Lemma core_status_codes_witness :
  503 = 200 ∨ 503 = 400 ∨ 503 = 408 ∨ 503 = 500 ∨
  ∃ u h p t resp,
    upstream_call (_generate_image_core "key" (JObj example_request)) =
      Some (u, h, p, t) ∧
    requests_post (world_answering reply_unavailable) u h p t = Ok resp ∧
    status_code resp = 503.
Proof.
  apply (core_status_codes (world_answering reply_unavailable) "key"
           (JObj example_request)
           (error_body (upstream_error_msg reply_unavailable))).
  rewrite core_validated by validate. reflexivity.
Defined.

(** X7. The two routes always answer: whatever the body, the credential
    and the upstream behaviour, no exception leaves [generate_image] or
    [generate_image_simple] (the core itself can raise). *)
Theorem routes_never_raise (w : world) (str_error : py_error → string)
    (key : string) (get_json : outcome json) :
  (∃ r s, run w (generate_image str_error key get_json) = Ok (r, s)) ∧
  (∃ r s, run w (generate_image_simple str_error key get_json) = Ok (r, s)).
Proof.
  split.
  - unfold generate_image. rewrite run_try_return.
    destruct (run w _) as [[r s]|e]; eauto.
  - unfold generate_image_simple. rewrite run_try_return.
    destruct (run w _) as [[r s]|e]; eauto.
Qed.

(** The core does raise: here on a request body that is a list. *)
Example core_can_raise (w : world) :
  run w (_generate_image_core "key" (JArr [JInt 1])) =
  Raised (Interpreter (AttributeError "get" (JArr [JInt 1]))).
Proof. reflexivity. Qed.

Lemma answers_are_well_formed_witness : well_formed_answer ERR_TIMEOUT 408.
Proof.
  apply (proj1 (answers_are_well_formed world_timing_out (λ _, "") "key"
                  (Ok JNull) (JObj example_request) ERR_TIMEOUT 408)).
  rewrite core_validated by validate. reflexivity.
Defined.

(** The other views answer in the same way, and the clock is all that the
    health check reads. *)
Example other_views_answer (w : world) :
  (∃ r, run w health_check = Ok (r, 200) ∧
        r !! "status" = Some (JStr "healthy") ∧
        r !! "timestamp" = Some (JStr (now_isoformat w)) ∧
        posted w health_check = []) ∧
  (∃ r, run w get_available_models = Ok (r, 200) ∧ well_formed_answer r 200) ∧
  (∃ r, run w not_found = Ok (r, 404) ∧ well_formed_answer r 404) ∧
  (∃ r, run w internal_error = Ok (r, 500) ∧ well_formed_answer r 500).
Proof.
  split; [| split; [| split]]; eexists; (split; [reflexivity |]).
  - repeat split; by simplify_map_eq.
  - right. split; [done |]. by simplify_map_eq.
  - left. split; [done |]. eexists. apply error_body_error.
  - left. split; [done |]. eexists. apply error_body_error.
Qed.

(** ** Ill-typed requests *)

Lemma truthy_prompt_nonempty (data : pydict) :
  py_truthy (prompt_of data) = true → py_truthy (JObj data) = true.
Proof.
  unfold prompt_of, effective. destruct (data !! "prompt") as [v|] eqn:Hp; [| done].
  intros _. cbn [py_truthy]. destruct (size data) eqn:Hsz; [| done].
  apply map_size_empty_iff in Hsz as ->. by rewrite lookup_empty in Hp.
Qed.

Lemma core_type_error (key : string) (data : pydict) :
  key ≠ "" → py_truthy (prompt_of data) = true →
  in_AVAILABLE_MODELS (model_of data) = true →
  (num_value (width_of data) = None →
   _generate_image_core key (JObj data) =
   Raise (Interpreter (TypeError "<" (width_of data)))) ∧
  (passes (width_of data) 256 2048 → num_value (height_of data) = None →
   _generate_image_core key (JObj data) =
   Raise (Interpreter (TypeError "<" (height_of data)))) ∧
  (passes (width_of data) 256 2048 → passes (height_of data) 256 2048 →
   num_value (steps_of data) = None →
   _generate_image_core key (JObj data) =
   Raise (Interpreter (TypeError "<" (steps_of data)))) ∧
  (passes (width_of data) 256 2048 → passes (height_of data) 256 2048 →
   passes (steps_of data) 1 12 → ¬ sliceable (prompt_of data) →
   _generate_image_core key (JObj data) =
   Raise (Interpreter (TypeError "[:]" (prompt_of data)))).
Proof.
  intros Hk Hp Hm. split; [| split; [| split]].
  - intros Hn. enter_core data Hk Hp Hm. unfold py_lt at 1. by rewrite Hn.
  - intros Hw Hn. enter_core data Hk Hp Hm.
    apply passes_spec in Hw as (a & Ha & Hlo & Hhi); compare_with Ha.
    rewrite Hlo, Hhi. cbn [bind].
    unfold py_lt at 1. by rewrite Hn.
  - intros Hw Hh Hn. enter_core data Hk Hp Hm. pass_dimensions Hw Hh.
    unfold py_lt at 1. by rewrite Hn.
  - intros Hw Hh Hs Hn. enter_core data Hk Hp Hm. pass_dimensions Hw Hh.
    apply passes_spec in Hs as (a & Ha & Hlo & Hhi); compare_with Ha.
    rewrite Hlo, Hhi.
    cbn [bind py_in py_getitem].
    destruct (data !! "negative_prompt"), (data !! "seed"), (data !! "guidance_scale");
      cbn [bind]; destruct (prompt_of data); cbn in Hn |- *; try done; by destruct Hn.
Qed.

(** X8. A width, height or steps value that is not a number (a string, a
    list, an object, null) is not reported as a validation error: the
    comparison raises, and [/generate] answers status 500 with
    ["Internal server error: ..."], provided the checks made before that
    comparison pass; a prompt that is neither text nor a list does the
    same once every check has passed. *)
Theorem ill_typed_field_is_server_error (w : world) (str_error : py_error → string)
    (key : string) (data : pydict) :
  key ≠ "" →
  py_truthy (prompt_of data) = true →
  in_AVAILABLE_MODELS (model_of data) = true →
  (num_value (width_of data) = None →
   run w (generate_image str_error key (Ok (JObj data))) =
   Ok (error_body ("Internal server error: " +:+
                   str_error (TypeError "<" (width_of data))), 500)) ∧
  (within (width_of data) 256 2048 → num_value (height_of data) = None →
   run w (generate_image str_error key (Ok (JObj data))) =
   Ok (error_body ("Internal server error: " +:+
                   str_error (TypeError "<" (height_of data))), 500)) ∧
  (within (width_of data) 256 2048 → within (height_of data) 256 2048 →
   num_value (steps_of data) = None →
   run w (generate_image str_error key (Ok (JObj data))) =
   Ok (error_body ("Internal server error: " +:+
                   str_error (TypeError "<" (steps_of data))), 500)) ∧
  (within (width_of data) 256 2048 → within (height_of data) 256 2048 →
   within (steps_of data) 1 12 → ¬ sliceable (prompt_of data) →
   run w (generate_image str_error key (Ok (JObj data))) =
   Ok (error_body ("Internal server error: " +:+
                   str_error (TypeError "[:]" (prompt_of data))), 500)).
Proof.
  intros Hk Hp Hm.
  destruct (core_type_error key data Hk Hp Hm) as (H1 & H2 & H3 & H4).
  pose proof (truthy_prompt_nonempty data Hp) as Ht.
  split; [| split; [| split]]; intros; rewrite generate_image_on_object by done.
  - by rewrite H1.
  - by rewrite H2 by auto using within_passes.
  - by rewrite H3 by auto using within_passes.
  - by rewrite H4 by auto using within_passes.
Qed.

Lemma ill_typed_field_is_server_error_witness :
  run example_world (generate_image (λ _, "unorderable") "key" (Ok (JObj wide_request))) =
  Ok (error_body ("Internal server error: " +:+ "unorderable"), 500).
Proof.
  apply (proj1 (ill_typed_field_is_server_error example_world (λ _, "unorderable")
                  "key" wide_request ltac:(discriminate)
                  ltac:(vm_compute; exact eq_refl) ltac:(vm_compute; exact eq_refl))).
  vm_compute. exact eq_refl.
Defined.

(** X9. A body that is not a JSON object: [/generate] answers 400
    ["No JSON data provided"] when the body is empty or false-like ([{}],
    [[]], [""], [0], [false], [null]), and 500 when it is any other
    non-object (the credential being configured), or when the body
    cannot be decoded at all; [/generate-simple] answers 500 for every
    non-object, [null] included, and 400 ["Prompt is required"] for
    [{}]. *)
Theorem bodies_that_are_not_objects (w : world) (str_error : py_error → string)
    (key : string) (d : json) :
  (py_truthy d = false →
   generate_image str_error key (Ok d) =
   Return (error_body "No JSON data provided", 400)) ∧
  (py_truthy d = true → (∀ data, d ≠ JObj data) → key ≠ "" →
   generate_image str_error key (Ok d) =
   Return (error_body ("Internal server error: " +:+
                       str_error (AttributeError "get" d)), 500)) ∧
  (∀ e, generate_image str_error key (Raised e) =
        Return (error_body ("Internal server error: " +:+ py_str str_error e), 500)) ∧
  ((∀ data, d ≠ JObj data) →
   generate_image_simple str_error key (Ok d) =
   Return (error_body (str_error (AttributeError "get" d)), 500)) ∧
  generate_image_simple str_error key (Ok (JObj ∅)) =
  Return (error_body "Prompt is required", 400).
Proof.
  split; [| split; [| split; [| split]]].
  - intros Ht. unfold generate_image. cbn [lift bind]. by rewrite Ht.
  - intros Ht Hd Hk. unfold generate_image. cbn [lift bind]. rewrite Ht.
    cbn [negb]. by rewrite core_not_object.
  - done.
  - intros Hd. unfold generate_image_simple. cbn [lift bind].
    destruct d; try done. by destruct (Hd m).
  - done.
Qed.

(** ** The simplified route on any body *)

(** X10. [/generate-simple] reads nothing but the prompt: on a body with
    a prompt it does exactly what it does on the body reduced to that
    prompt, and the payload it sends has the first model, width 1024,
    height 1024, steps 12, n 1, the default negative prompt and guidance
    scale, and no seed, whatever else the body holds. *)
Theorem simple_route_reads_prompt_only (str_error : py_error → string)
    (key : string) (data : pydict) (prompt : json) :
  data !! "prompt" = Some prompt →
  generate_image_simple str_error key (Ok (JObj data)) =
  generate_image_simple str_error key (Ok (JObj {[ "prompt" := prompt ]})) ∧
  ∀ u h p t,
    upstream_call (generate_image_simple str_error key (Ok (JObj data))) =
      Some (u, h, p, t) →
    p !! "prompt" = Some prompt ∧
    p !! "model" = Some (JStr "black-forest-labs/FLUX.1-schnell-Free") ∧
    p !! "width" = Some (JInt 1024) ∧ p !! "height" = Some (JInt 1024) ∧
    p !! "steps" = Some (JInt 12) ∧ p !! "n" = Some (JInt 1) ∧
    p !! "negative_prompt" = Some (JStr DEFAULT_NEGATIVE_PROMPT) ∧
    p !! "guidance_scale" = Some (JFloat DEFAULT_GUIDANCE_SCALE) ∧
    p !! "seed" = None.
Proof.
  intros Hp. unfold generate_image_simple. cbn [lift bind dict_get].
  rewrite Hp, lookup_singleton_eq. cbn [default from_option id]. split; [done |].
  intros u h p t.
  destruct (py_truthy prompt); cbn [negb try_except upstream_call]; [| done].
  destruct (_generate_image_core key (JObj (enhanced_data prompt)))
    as [a | e | u' h' p' t' k | k] eqn:Hcore; cbn [try_except upstream_call]; try done.
  intros [= -> -> -> ->].
  assert (upstream_call (_generate_image_core key (JObj (enhanced_data prompt))) =
          Some (u, h, p, t)) as Hcall by (by rewrite Hcore).
  apply upstream_call_inv in Hcall as (data' & [= <-] & _ & _ & _ & _ & -> & _).
  rewrite payload_prompt, payload_model, payload_width, payload_height,
    payload_steps, payload_n, payload_negative_prompt, payload_guidance_scale,
    payload_seed.
  unfold prompt_of, model_of, width_of, height_of, steps_of, n_of, effective,
    enhanced_data.
  by simplify_map_eq.
Qed.

Lemma simple_route_reads_prompt_only_witness :
  generate_image_simple (λ _, "") "key" (Ok (JObj tuned_request)) =
  generate_image_simple (λ _, "") "key" (Ok (JObj {[ "prompt" := JStr "a cat" ]})) ∧
  ∀ u h p t,
    upstream_call (generate_image_simple (λ _, "") "key" (Ok (JObj tuned_request))) =
      Some (u, h, p, t) →
    p !! "prompt" = Some (JStr "a cat") ∧
    p !! "model" = Some (JStr "black-forest-labs/FLUX.1-schnell-Free") ∧
    p !! "width" = Some (JInt 1024) ∧ p !! "height" = Some (JInt 1024) ∧
    p !! "steps" = Some (JInt 12) ∧ p !! "n" = Some (JInt 1) ∧
    p !! "negative_prompt" = Some (JStr DEFAULT_NEGATIVE_PROMPT) ∧
    p !! "guidance_scale" = Some (JFloat DEFAULT_GUIDANCE_SCALE) ∧
    p !! "seed" = None.
Proof.
  apply (simple_route_reads_prompt_only (λ _, "") "key" tuned_request (JStr "a cat")).
  vm_compute. exact eq_refl.
Defined.

(** X11. The two routes do not check in the same order: without a
    credential [/generate-simple] still answers 400
    ["Prompt is required"] to a body without a prompt, and answers the
    configuration error only to a body with one, whereas [/generate]
    answers the configuration error (status 500) to every non-empty
    body, prompt or no prompt. *)
Theorem routes_check_order (str_error : py_error → string) (data : pydict) :
  (py_truthy (prompt_of data) = false →
   ∀ key, generate_image_simple str_error key (Ok (JObj data)) =
          Return (error_body "Prompt is required", 400)) ∧
  (py_truthy (prompt_of data) = true →
   generate_image_simple str_error "" (Ok (JObj data)) = Return (ERR_NO_KEY, 500)) ∧
  (py_truthy (JObj data) = true →
   generate_image str_error "" (Ok (JObj data)) = Return (ERR_NO_KEY, 500)).
Proof.
  split; [| split].
  - intros Hp key. unfold generate_image_simple. cbn [lift bind dict_get].
    fold (effective data "prompt" JNull). fold (prompt_of data). by rewrite Hp.
  - intros Hp. unfold generate_image_simple. cbn [lift bind dict_get].
    fold (effective data "prompt" JNull). fold (prompt_of data). by rewrite Hp.
  - intros Ht. unfold generate_image. cbn [lift bind]. by rewrite Ht.
Qed.

(** ** Upstream answers the translator cannot use *)

(** X12. When the upstream answers status 200 and its body cannot be
    decoded, the failure of [response.json()] is handled by class: a
    [RequestException] gives status 500 with ["Request failed: ..."], a
    [Timeout] gives status 408, and any other exception leaves the core,
    so that [/generate] answers 500 ["Internal server error: ..."]. *)
Theorem undecodable_upstream_body (w : world) (str_error : py_error → string)
    (key : string) (data : pydict) u h p t (resp : response) (e : exn) :
  upstream_call (_generate_image_core key (JObj data)) = Some (u, h, p, t) →
  requests_post w u h p t = Ok resp →
  status_code resp = 200 →
  json_body resp = Raised e →
  run w (_generate_image_core key (JObj data)) =
    match e with
    | Timeout _ => Ok (ERR_TIMEOUT, 408)
    | RequestException msg => Ok (error_body ("Request failed: " +:+ msg), 500)
    | _ => Raised e
    end ∧
  run w (generate_image str_error key (Ok (JObj data))) =
    match e with
    | Timeout _ => Ok (ERR_TIMEOUT, 408)
    | RequestException msg => Ok (error_body ("Request failed: " +:+ msg), 500)
    | _ => Ok (error_body ("Internal server error: " +:+ py_str str_error e), 500)
    end.
Proof.
  intros (data' & [= <-] & Hv & Hcore & -> & -> & -> & ->)%upstream_call_inv
         Hpost Hst Hjs.
  assert (run w (_generate_image_core key (JObj data)) =
          run w (try_except (Raise e) core_handler)) as Hrun
    by (by rewrite Hcore, run_dispatch, Hpost, Hst, Hjs).
  rewrite run_handled in Hrun. split; [done |].
  rewrite generate_image_on_object, Hrun
    by (apply truthy_prompt_nonempty; by destruct Hv).
  by destruct e.
Qed.

Lemma undecodable_upstream_body_witness :
  run (world_answering reply_html) (_generate_image_core "key" (JObj example_request)) =
    Raised (OtherException "Expecting value") ∧
  run (world_answering reply_html)
      (generate_image (λ _, "") "key" (Ok (JObj example_request))) =
    Ok (error_body ("Internal server error: " +:+ "Expecting value"), 500).
Proof.
  apply (undecodable_upstream_body (world_answering reply_html) (λ _, "") "key"
           example_request TOGETHER_API_URL (request_headers "key")
           (payload_of example_request) 120 reply_html
           (OtherException "Expecting value"));
    [apply validated_call; validate | reflexivity | reflexivity | reflexivity].
Defined.

(** X13. When the [data] of a status-200 upstream body is not an array:
    an empty string or an empty object gives status 500
    ["No images generated"], like an empty array; [null], a number or a
    boolean makes [len] raise; a non-empty string or object makes the loop
    raise on its first character or key. In the last two cases the core
    raises and returns nothing. *)
Theorem data_not_an_array (w : world) (key : string) (data : pydict)
    u h p t (resp : response) (body : pydict) (v : json) :
  upstream_call (_generate_image_core key (JObj data)) = Some (u, h, p, t) →
  requests_post w u h p t = Ok resp →
  status_code resp = 200 →
  json_body resp = Ok (JObj body) →
  body !! "data" = Some v →
  (v = JStr "" ∨ v = JObj ∅ →
   run w (_generate_image_core key (JObj data)) = Ok (ERR_NO_IMAGES, 500)) ∧
  (¬ sized v →
   run w (_generate_image_core key (JObj data)) =
   Raised (Interpreter (TypeError "len" v))) ∧
  ((∃ c s, v = JStr (String c s)) ∨ (∃ m, v = JObj m ∧ m ≠ ∅) →
   ∃ item, run w (_generate_image_core key (JObj data)) =
           Raised (Interpreter (AttributeError "keys" (JStr item)))).
Proof.
  intros Hcall Hpost Hst Hjs Hd.
  destruct (run_translated _ _ _ _ _ _ _ _ _ Hcall Hpost Hst Hjs) as [_ ->].
  unfold translate_response, py_and. cbn [py_in py_getitem bind]. rewrite Hd.
  cbn [bind]. split; [| split].
  - by intros [-> | ->].
  - intros Hv. destruct v; cbn in Hv |- *; try done; by destruct Hv.
  - intros [(c & s & ->) | (m & -> & Hm)].
    + cbn. eauto.
    + cbn [py_len bind].
      destruct (map_to_list m) as [|[k x] kvs] eqn:Hl;
        [by apply map_to_list_empty_iff in Hl |].
      assert (size m ≠ 0%nat) as Hsz by (by intros ?%map_size_empty_iff).
      destruct (size m) as [|n]; [done |].
      cbn [Z.ltb Z.of_nat Z.compare py_iter bind]. rewrite Hl. cbn. eauto.
Qed.

Lemma data_not_an_array_witness :
  run (world_answering reply_null_data)
      (_generate_image_core "key" (JObj example_request)) =
  Raised (Interpreter (TypeError "len" JNull)).
Proof.
  refine (proj1 (proj2 (data_not_an_array (world_answering reply_null_data) "key"
                          example_request TOGETHER_API_URL (request_headers "key")
                          (payload_of example_request) 120 reply_null_data
                          {[ "data" := JNull ]} JNull _ _ _ _ _)) _);
    [apply validated_call; validate | reflexivity | reflexivity | reflexivity
    | reflexivity | exact (λ H, H)].
Defined.

Lemma process_images_app (entries : list pydict) (items : list json)
    (i : Z) (acc : list json) :
  Forall inline_sized entries →
  process_images i ((JObj <$> entries) ++ items) acc =
  process_images (i + Z.of_nat (length entries)) items
    (acc ++ results_from i entries)%list.
Proof.
  intros Hall. revert i acc.
  induction Hall as [|e rest He _ IH]; intros i acc.
  { cbn. by rewrite Z.add_0_r, app_nil_r. }
  cbn [fmap list_fmap app process_images results_from length].
  cbn [dict_keys py_in py_getitem bind]. unfold spec_image_result.
  replace (i + Z.of_nat (S (length rest))) with (i + 1 + Z.of_nat (length rest)) by lia.
  destruct (e !! "url") as [u|] eqn:Hu; cbn [bind option_list].
  { rewrite IH. by rewrite <- app_assoc. }
  destruct (e !! "b64_json") as [b|] eqn:Hb; cbn [bind option_list].
  - specialize (He Hu b Hb).
    destruct b; try done; cbn [py_len bind]; rewrite IH; by rewrite <- app_assoc.
  - apply IH.
Qed.

Lemma process_images_entry_error (item : json) (err : py_error) (rest : list json)
    (i : Z) (acc : list json) :
  entry_error item = Some err →
  process_images i (item :: rest) acc = Raise (Interpreter err).
Proof.
  unfold entry_error. cbn [process_images].
  destruct item as [ | | | | | | m | | ]; cbn [dict_keys bind]; try by intros [= <-].
  cbn [py_in py_getitem bind].
  destruct (m !! "url"); [done |]. cbn [bind].
  destruct (m !! "b64_json") as [b|]; [| done]. cbn [bind].
  destruct b; cbn [py_len bind]; try done; by intros [= <-].
Qed.

(** X14. One malformed entry fails the whole request, even after entries
    that translate well: an entry of the [data] array that is not an
    object, or an object without [url] whose [b64_json] is [null], a
    number or a boolean, makes the core raise (so that no image at all is
    returned), whatever follows it in the array. *)
Theorem malformed_entry_fails_request (w : world) (key : string) (data : pydict)
    u h p t (resp : response) (body : pydict)
    (entries : list pydict) (item : json) (rest : list json) (err : py_error) :
  upstream_call (_generate_image_core key (JObj data)) = Some (u, h, p, t) →
  requests_post w u h p t = Ok resp →
  status_code resp = 200 →
  json_body resp = Ok (JObj body) →
  body !! "data" = Some (JArr ((JObj <$> entries) ++ item :: rest)) →
  Forall inline_sized entries →
  entry_error item = Some err →
  run w (_generate_image_core key (JObj data)) = Raised (Interpreter err).
Proof.
  intros Hcall Hpost Hst Hjs Hd Hall Herr.
  destruct (run_translated _ _ _ _ _ _ _ _ _ Hcall Hpost Hst Hjs) as [_ ->].
  unfold translate_response, py_and. cbn [py_in py_getitem bind]. rewrite Hd.
  cbn [py_len bind].
  assert ((0 <? Z.of_nat (length ((JObj <$> entries) ++ item :: rest))) = true) as ->.
  { rewrite length_app. cbn [length]. apply Z.ltb_lt. lia. }
  cbn [py_iter bind].
  by rewrite process_images_app, (process_images_entry_error _ _ _ _ _ Herr).
Qed.

Lemma malformed_entry_fails_request_witness :
  run (world_answering reply_stray_item)
      (_generate_image_core "key" (JObj example_request)) =
  Raised (Interpreter (AttributeError "keys" (JInt 7))).
Proof.
  apply (malformed_entry_fails_request (world_answering reply_stray_item) "key"
           example_request TOGETHER_API_URL (request_headers "key")
           (payload_of example_request) 120 reply_stray_item
           {[ "data" := JArr ((JObj <$> [ {[ "url" := JStr "x" ]} ]) ++
                              [JInt 7; JObj {[ "url" := JStr "z" ]}]) ]}
           [ {[ "url" := JStr "x" ]} ] (JInt 7) [JObj {[ "url" := JStr "z" ]}]);
    [apply validated_call; validate | reflexivity | reflexivity | reflexivity
    | reflexivity | | reflexivity].
  repeat constructor. intros Hu. vm_compute in Hu. discriminate.
Defined.

(** ** How many images *)

Lemma results_from_count (entries : list pydict) (i : Z) :
  length (results_from i entries) = length (List.filter has_encoding entries).
Proof.
  revert i. induction entries as [|e rest IH]; intros i; [done |].
  cbn [results_from List.filter]. rewrite length_app, IH.
  unfold spec_image_result, has_encoding.
  by destruct (e !! "url"), (e !! "b64_json").
Qed.

(** X15. A response of status 200 has one image for each entry of the
    upstream [data] array that has a [url] or a [b64_json] field, no
    more and no fewer: entries are dropped only for having neither. *)
Theorem images_count (w : world) (key : string) (d : json) (r : pydict) :
  run w (_generate_image_core key d) = Ok (r, 200) →
  ∃ (images : list json) (entries : list pydict) u h p t resp body,
    r !! "images" = Some (JArr images) ∧
    upstream_call (_generate_image_core key d) = Some (u, h, p, t) ∧
    requests_post w u h p t = Ok resp ∧
    json_body resp = Ok (JObj body) ∧
    body !! "data" = Some (JArr (JObj <$> entries)) ∧
    length images = length (List.filter has_encoding entries).
Proof.
  intros (data & resp & body & entries & -> & Hv & Hpost & Hst & Hjs & Hd & Hne &
          Hall & ->)%run_success_inv.
  exists (results_from 0 entries), entries, TOGETHER_API_URL, (request_headers key),
    (payload_of data), 120, resp, body.
  rewrite success_images, (validated_call _ _ Hv), results_from_count.
  by repeat split.
Qed.

Lemma images_count_witness :
  ∃ (images : list json) (entries : list pydict) u h p t resp body,
    success_body (prompt_of example_request) (model_of example_request)
      (width_of example_request) (height_of example_request)
      (steps_of example_request) (n_of example_request)
      (payload_of example_request) (results_from 0 example_entries)
      (now_isoformat example_world) !! "images" = Some (JArr images) ∧
    upstream_call (_generate_image_core "key" (JObj example_request)) =
      Some (u, h, p, t) ∧
    requests_post example_world u h p t = Ok resp ∧
    json_body resp = Ok (JObj body) ∧
    body !! "data" = Some (JArr (JObj <$> entries)) ∧
    length images = length (List.filter has_encoding entries).
Proof.
  apply (images_count example_world "key" (JObj example_request)).
  apply (run_success example_world "key" example_request example_reply
           {[ "data" := JArr (JObj <$> example_entries) ]} example_entries);
    [validate | reflexivity | reflexivity | reflexivity | reflexivity
    | discriminate | apply example_entries_sized].
Defined.

(** ** The model list *)

(** X16. What [/models] answers agrees with the validator: a model value
    of a request passes the model check exactly when it is one of the
    strings of the [models] list, and the [default] it names is in that
    list and is the model sent upstream for a request that names none. *)
Theorem models_route_agrees_with_validator :
  ∃ (answer : pydict) (models : list json) (default_model : string),
    get_available_models = Return (answer, 200) ∧
    answer !! "models" = Some (JArr models) ∧
    answer !! "default" = Some (JStr default_model) ∧
    JStr default_model ∈ models ∧
    (∀ model : json, in_AVAILABLE_MODELS model = true ↔ model ∈ models) ∧
    (∀ key (data : pydict) u h p t,
       data !! "model" = None →
       upstream_call (_generate_image_core key (JObj data)) = Some (u, h, p, t) →
       p !! "model" = Some (JStr default_model)).
Proof.
  eexists _, (JStr <$> AVAILABLE_MODELS), AVAILABLE_MODELS_0.
  split; [reflexivity |]. split; [by simplify_map_eq |].
  split; [by simplify_map_eq |].
  split; [apply list_elem_of_fmap_2; by left |]. split.
  - intros model. unfold in_AVAILABLE_MODELS. split.
    + destruct model; try done. intros Hin%bool_decide_eq_true.
      by apply list_elem_of_fmap_2.
    + intros (m & -> & Hin)%list_elem_of_fmap. by apply bool_decide_eq_true.
  - intros key data u h p t Hnone
      (data' & [= <-] & _ & _ & _ & _ & -> & _)%upstream_call_inv.
    rewrite payload_model. unfold model_of, effective. by rewrite Hnone.
Qed.

(** ** Fields that are and are not validated *)

(** X17. The defaults pass the validator: with a credential, a request
    whose prompt is a non-empty string and which names no model, width,
    height or steps is always dispatched, with the first model, width
    1024, height 1024 and steps 12, whatever its other fields. *)
Theorem minimal_request_is_dispatched (key : string) (data : pydict) (prompt : string) :
  key ≠ "" →
  data !! "prompt" = Some (JStr prompt) → prompt ≠ "" →
  data !! "model" = None → data !! "width" = None →
  data !! "height" = None → data !! "steps" = None →
  ∃ p, upstream_call (_generate_image_core key (JObj data)) =
         Some (TOGETHER_API_URL, request_headers key, p, 120) ∧
       p !! "prompt" = Some (JStr prompt) ∧
       p !! "model" = Some (JStr "black-forest-labs/FLUX.1-schnell-Free") ∧
       p !! "width" = Some (JInt 1024) ∧ p !! "height" = Some (JInt 1024) ∧
       p !! "steps" = Some (JInt 12).
Proof.
  intros Hk Hp Hne Hm Hw Hh Hs.
  assert (validated key data) as Hv.
  { split; unfold prompt_of, model_of, width_of, height_of, steps_of, effective;
      rewrite ?Hp, ?Hm, ?Hw, ?Hh, ?Hs; cbn [default from_option id];
      [done | | done | done | ..].
    - cbn. by rewrite bool_decide_eq_false_2.
    - apply passes_int. lia.
    - apply passes_int. lia.
    - apply passes_int. lia. }
  exists (payload_of data). split; [by apply validated_call |].
  rewrite payload_prompt, payload_model, payload_width, payload_height, payload_steps.
  unfold prompt_of, model_of, width_of, height_of, steps_of, effective.
  by rewrite Hp, Hm, Hw, Hh, Hs.
Qed.

Lemma minimal_request_is_dispatched_witness :
  ∃ p, upstream_call (_generate_image_core "key" (JObj decorated_request)) =
         Some (TOGETHER_API_URL, request_headers "key", p, 120) ∧
       p !! "prompt" = Some (JStr "a cat") ∧
       p !! "model" = Some (JStr "black-forest-labs/FLUX.1-schnell-Free") ∧
       p !! "width" = Some (JInt 1024) ∧ p !! "height" = Some (JInt 1024) ∧
       p !! "steps" = Some (JInt 12).
Proof.
  apply (minimal_request_is_dispatched "key" decorated_request "a cat");
    first [discriminate | vm_compute; exact eq_refl].
Defined.

Lemma effective_insert_ne (data : pydict) (k k' : string) (v dflt : json) :
  k ≠ k' → effective (<[k := v]> data) k' dflt = effective data k' dflt.
Proof. intros Hne. unfold effective. by rewrite lookup_insert_ne. Qed.

Lemma validated_insert (key : string) (data : pydict) (k : string) (v : json) :
  k ∉ VALIDATED_FIELDS → validated key data → validated key (<[k := v]> data).
Proof.
  intros Hk [? ? ? ? ? ? ?]. unfold VALIDATED_FIELDS in Hk.
  split; unfold prompt_of, model_of, width_of, height_of, steps_of in *;
    rewrite ?effective_insert_ne by (intros ->; apply Hk; set_solver); done.
Qed.

Lemma validated_insert_inv (key : string) (data : pydict) (k : string) (v : json) :
  k ∉ VALIDATED_FIELDS → validated key (<[k := v]> data) → validated key data.
Proof.
  intros Hk [? ? ? ? ? ? ?]. unfold VALIDATED_FIELDS in Hk.
  unfold prompt_of, model_of, width_of, height_of, steps_of in *;
    rewrite ?effective_insert_ne in * by (intros ->; apply Hk; set_solver).
  by split.
Qed.

(** X18. Only [prompt], [model], [width], [height] and [steps] decide
    whether a request is dispatched: setting any other field ([n],
    [seed], [negative_prompt], [guidance_scale], an unknown field) to any
    value never turns an accepted request into a rejected one or the
    reverse. In particular [n] is forwarded unchecked. *)
Theorem unvalidated_fields (key : string) (data : pydict) (k : string) (v : json) :
  k ∉ VALIDATED_FIELDS →
  is_Some (upstream_call (_generate_image_core key (JObj (<[k := v]> data)))) ↔
  is_Some (upstream_call (_generate_image_core key (JObj data))).
Proof.
  intros Hk. split.
  - intros [[[[u h] p] t] Hcall].
    apply upstream_call_inv in Hcall as (data' & [= <-] & Hv & _).
    apply validated_insert_inv in Hv; [| done].
    by rewrite (validated_call _ _ Hv).
  - intros [[[[u h] p] t] Hcall].
    apply upstream_call_inv in Hcall as (data' & [= <-] & Hv & _).
    by rewrite (validated_call _ _ (validated_insert _ _ k v Hk Hv)).
Qed.

Lemma unvalidated_fields_witness :
  is_Some (upstream_call (_generate_image_core "key"
             (JObj (<["n" := JStr "many"]> example_request)))) ↔
  is_Some (upstream_call (_generate_image_core "key" (JObj example_request))).
Proof.
  apply (unvalidated_fields "key" example_request "n" (JStr "many")).
  apply (bool_decide_unpack _). vm_compute. exact I.
Defined.

(** ** The requests of the client script *)

(** X19. Against this server, with a credential and whatever the
    upstream does, the three requests of [test_error_handling] get the
    status 400 the script expects, and the request of
    [test_advanced_generation] gets status 400 too, where the script
    expects 200: its model is not in [AVAILABLE_MODELS], and with any
    model of the list in its place its 20 steps are rejected. *)
Theorem client_script_requests (w : world) (str_error : py_error → string)
    (key : string) :
  key ≠ "" →
  run w (generate_image_simple str_error key (Ok (JObj MISSING_PROMPT_TEST_DATA))) =
    Ok (error_body "Prompt is required", 400) ∧
  run w (generate_image str_error key (Ok (JObj INVALID_MODEL_TEST_DATA))) =
    Ok (ERR_MODEL, 400) ∧
  run w (generate_image str_error key (Ok (JObj INVALID_DIMENSIONS_TEST_DATA))) =
    Ok (ERR_DIMENSIONS, 400) ∧
  run w (generate_image str_error key (Ok (JObj ADVANCED_TEST_DATA))) =
    Ok (ERR_MODEL, 400) ∧
  (∀ model, model ∈ AVAILABLE_MODELS →
     run w (generate_image str_error key
              (Ok (JObj (<["model" := JStr model]> ADVANCED_TEST_DATA)))) =
     Ok (ERR_STEPS, 400)).
Proof.
  intros Hk. split; [done | split; [| split; [| split]]].
  - rewrite generate_image_on_object by (vm_compute; exact eq_refl).
    rewrite core_model; first [done | vm_compute; exact eq_refl].
  - rewrite generate_image_on_object by (vm_compute; exact eq_refl).
    rewrite core_dimensions; [done | done | vm_compute; exact eq_refl..|].
    left. assert (width_of INVALID_DIMENSIONS_TEST_DATA = JInt 100) as ->
      by (vm_compute; exact eq_refl).
    apply below_int. lia.
  - rewrite generate_image_on_object by (vm_compute; exact eq_refl).
    rewrite core_model; first [done | vm_compute; exact eq_refl].
  - intros model Hin.
    assert (prompt_of (<["model" := JStr model]> ADVANCED_TEST_DATA) =
            prompt_of ADVANCED_TEST_DATA) as Hp
      by (unfold prompt_of; by apply effective_insert_ne).
    assert (model_of (<["model" := JStr model]> ADVANCED_TEST_DATA) = JStr model) as Hm
      by (unfold model_of, effective; by rewrite lookup_insert_eq).
    assert (width_of (<["model" := JStr model]> ADVANCED_TEST_DATA) = JInt 1024) as Hw
      by (unfold width_of; rewrite effective_insert_ne by done;
          vm_compute; exact eq_refl).
    assert (height_of (<["model" := JStr model]> ADVANCED_TEST_DATA) = JInt 1024) as Hh
      by (unfold height_of; rewrite effective_insert_ne by done;
          vm_compute; exact eq_refl).
    assert (steps_of (<["model" := JStr model]> ADVANCED_TEST_DATA) = JInt 20) as Hs
      by (unfold steps_of; rewrite effective_insert_ne by done;
          vm_compute; exact eq_refl).
    assert (py_truthy (prompt_of (<["model" := JStr model]> ADVANCED_TEST_DATA)) = true)
      as Ht by (rewrite Hp; vm_compute; exact eq_refl).
    rewrite generate_image_on_object by (by apply truthy_prompt_nonempty).
    rewrite core_steps; [done | done | done | ..].
    + rewrite Hm. by apply bool_decide_eq_true.
    + rewrite Hw. apply passes_int. lia.
    + rewrite Hh. apply passes_int. lia.
    + right. rewrite Hs. apply above_int. lia.
Qed.

Lemma client_script_requests_witness :
  run example_world
      (generate_image (λ _, "") "key" (Ok (JObj ADVANCED_TEST_DATA))) =
  Ok (ERR_MODEL, 400).
Proof.
  apply (proj1 (proj2 (proj2 (proj2
           (client_script_requests example_world (λ _, "") "key"
              ltac:(discriminate)))))).
Defined.
